(** * Attendance tracker: server actions, page queries and the relational store

    A shallow embedding of the attendance application:
    - [Actions]        : app/attendance/actions.ts  (markAttendance, toggleAttendance)
    - [RecordsPage]    : app/records/page.tsx       (getAttendanceRecords, recordsByService)
    - [AttendancePage] : app/attendance/page.tsx    (getMembers, getServices, getServiceAttendance)
    - [AdminPage]      : app/admin/page.tsx         (addMember, addService, getMembers, getServices)

    Every function of the source is an [async] function talking to one
    process-wide store client.  They are embedded in a state-and-exception
    monad [M] over a [World] that holds the database, the script of transport
    faults of the store calls still to come, and the list of revalidated
    paths. *)

From stdpp Require Import base strings gmap list sorting pretty.

Local Open Scope string_scope.
Local Open Scope list_scope.
Local Open Scope nat_scope.

(** ** Tables (schema.sql) *)

(** members(id PK, created_at, full_name NOT NULL, phone_number, email);
    the primary key is the key of the table's map. Timestamps are clock ticks. *)
Record MemberRow := mkMemberRow {
  m_created_at : N;
  m_full_name : string;
  m_phone_number : option string;
  m_email : option string;
}.

(** services(id PK, created_at, name NOT NULL, description, service_date NOT NULL UNIQUE);
    a DATE is the ISO string the client sends and receives. *)
Record ServiceRow := mkServiceRow {
  sv_created_at : N;
  sv_name : string;
  sv_description : option string;
  sv_service_date : string;
}.

(** attendance_records(id PK, member_id FK, service_id FK, service_date NOT NULL);
    no uniqueness constraint on (member_id, service_id). *)
Record AttendanceRow := mkAttendanceRow {
  ar_id : string;
  ar_member_id : string;
  ar_service_id : string;
  ar_service_date : string;
}.

Record DB := mkDB {
  members : gmap string MemberRow;
  services : gmap string ServiceRow;
  attendance_records : list AttendanceRow;
  db_seq : N;
}.

(** ** The world the async functions run in *)

Record World := mkWorld {
  w_db : DB;
  w_faults : list (option string);
  w_revalidated : list string;
}.

(** What an [await]ed call can do: return, throw an [Error], or leave through
    Next's [redirect]. *)
Inductive outcome (A : Type) : Type :=
  | Return (a : A)
  | Throw (msg : string)
  | Redirect (url : string).
Arguments Return {A} a.
Arguments Throw {A} msg.
Arguments Redirect {A} url.

Definition M (A : Type) : Type := World → outcome A * World.

#[global] Instance M_ret : MRet M := λ A a w, (Return a, w).
#[global] Instance M_bind : MBind M := λ A B f c w,
  match c w with
  | (Return a, w') => f a w'
  | (Throw msg, w') => (Throw msg, w')
  | (Redirect url, w') => (Redirect url, w')
  end.

Definition throw {A} (msg : string) : M A := λ w, (Throw msg, w).
Definition redirect {A} (url : string) : M A := λ w, (Redirect url, w).
Definition revalidatePath (path : string) : M unit := λ w,
  (Return tt, mkWorld (w_db w) (w_faults w) (w_revalidated w ++ [path])).

(** ** The store client

    The client ([lib/supabase] and the library behind it) is not among the
    sources. Its calls are modelled from the schema, from the way the
    sources use the answers, and from the specification's Data Store: a call
    is atomic, never throws and answers with [{ data, error }]. A call first
    consumes the next entry of the fault script: [Some msg] is a failure of
    that call, opaque beyond its message, which leaves the database alone. *)

Record Response (A : Type) := mkResponse {
  data : option A;
  error : option string;
}.
Arguments mkResponse {A} data error.
Arguments data {A} r.
Arguments error {A} r.

Definition ok {A} (a : A) : Response A := mkResponse (Some a) None.
Definition failed {A} (msg : string) : Response A := mkResponse None (Some msg).

Definition next_fault : M (option string) := λ w,
  match w_faults w with
  | [] => (Return None, w)
  | f :: fs => (Return f, mkWorld (w_db w) fs (w_revalidated w))
  end.

Definition get_db : M DB := λ w, (Return (w_db w), w).
Definition put_db (db : DB) : M unit := λ w,
  (Return tt, mkWorld db (w_faults w) (w_revalidated w)).

(** Modelled from the spec: [.single()] of the absent client; the row when
    there is exactly one, otherwise (absent, or several) an error and no
    data. *)
Definition single {A} (rows : list A) : Response A :=
  match rows with
  | [r] => ok r
  | _ => failed "JSON object requested, multiple (or no) rows returned"
  end.

(** Modelled from the spec: [from(t).select(..)...] of the absent client, a
    read of [rows] that fails only with the call. *)
Definition select {A} (rows : DB → list A) : M (Response (list A)) :=
  f ← next_fault;
  db ← get_db;
  mret (match f with Some msg => failed msg | None => ok (rows db) end).

(** Modelled from the spec: [from(t).select(..)....single()] of the absent
    client. *)
Definition select_single {A} (rows : DB → list A) : M (Response A) :=
  f ← next_fault;
  db ← get_db;
  mret (match f with Some msg => failed msg | None => single (rows db) end).

(** Rows of a table keyed by its primary key, [.eq('id', id)]. *)
Definition by_id {A} (tbl : gmap string A) (id : string) : list A :=
  match tbl !! id with Some r => [r] | None => [] end.

Definition service_rows (db : DB) (id : string) : list ServiceRow := by_id (services db) id.
Definition member_rows (db : DB) (id : string) : list MemberRow := by_id (members db) id.

Definition gen_random_uuid (db : DB) : string := pretty (db_seq db).

(** Modelled from the spec: [from('attendance_records').insert([{ member_id,
    service_id, service_date }])] of the absent client; the store checks both
    references (referential integrity) and nothing else, a row gets a fresh
    id. *)
Definition insert_attendance_record (member_id service_id service_date : string)
  : M (Response unit) :=
  f ← next_fault;
  db ← get_db;
  match f with
  | Some msg => mret (failed msg)
  | None =>
    if bool_decide (is_Some (members db !! member_id))
       && bool_decide (is_Some (services db !! service_id))
    then
      put_db (mkDB (members db) (services db)
                (attendance_records db ++
                   [mkAttendanceRow (gen_random_uuid db) member_id service_id service_date])
                (N.succ (db_seq db)));;
      mret (mkResponse None None)
    else mret (failed "insert on table attendance_records violates foreign key constraint")
  end.

Definition ar_matches (member_id service_id : string) (r : AttendanceRow) : bool :=
  bool_decide (ar_member_id r = member_id) && bool_decide (ar_service_id r = service_id).

(** Modelled from the spec: [from('attendance_records').delete()
    .eq('member_id', m).eq('service_id', s)] of the absent client; every
    matching row goes, none matching is no error. *)
Definition delete_attendance_records (member_id service_id : string)
  : M (Response unit) :=
  f ← next_fault;
  db ← get_db;
  match f with
  | Some msg => mret (failed msg)
  | None =>
    put_db (mkDB (members db) (services db)
              (filter (λ r, ar_matches member_id service_id r = false) (attendance_records db))
              (db_seq db));;
    mret (mkResponse None None)
  end.

(** Modelled from the spec: [from('members').insert([{ full_name,
    phone_number, email }])] of the absent client; id and creation time are
    the store's defaults. *)
Definition insert_member (full_name : string) (phone_number email : option string)
  : M (Response unit) :=
  f ← next_fault;
  db ← get_db;
  match f with
  | Some msg => mret (failed msg)
  | None =>
    put_db (mkDB (<[gen_random_uuid db := mkMemberRow (db_seq db) full_name phone_number email]>
                    (members db))
              (services db) (attendance_records db) (N.succ (db_seq db)));;
    mret (mkResponse None None)
  end.

Definition date_taken (db : DB) (service_date : string) : bool :=
  bool_decide (Exists (λ kv, sv_service_date kv.2 = service_date) (map_to_list (services db))).

(** Modelled from the spec: [from('services').insert([{ name, description,
    service_date }])] of the absent client; no two services share a date. *)
Definition insert_service (name : string) (description : option string) (service_date : string)
  : M (Response unit) :=
  f ← next_fault;
  db ← get_db;
  match f with
  | Some msg => mret (failed msg)
  | None =>
    if date_taken db service_date
    then mret (failed "duplicate key value violates unique constraint services_service_date_key")
    else
      put_db (mkDB (members db)
                (<[gen_random_uuid db := mkServiceRow (db_seq db) name description service_date]>
                   (services db))
                (attendance_records db) (N.succ (db_seq db)));;
      mret (mkResponse None None)
  end.

(** ** JavaScript values *)

(** [!v] for a value that is a string or null. *)
Definition falsy (v : option string) : bool :=
  match v with
  | None => true
  | Some s => bool_decide (s = "")
  end.

(** ['...' + e?.message] *)
Definition js_string (v : option string) : string := default "undefined" v.

Definition FormData := list (string * string).

Fixpoint formData_get (fd : FormData) (name : string) : option string :=
  match fd with
  | [] => None
  | (k, v) :: fd' => if bool_decide (k = name) then Some v else formData_get fd' name
  end.

(** ** app/attendance/actions.ts *)

Module Actions.

Inductive ActionResult :=
  | Success
  | Error (msg : string).

Definition markAttendance (formData : FormData) : M ActionResult :=
  let memberId := formData_get formData "memberId" in
  let serviceId := formData_get formData "serviceId" in
  if falsy memberId || falsy serviceId
  then mret (Error "Member and service are required")
  else
    let memberId := default "" memberId in
    let serviceId := default "" serviceId in
    r ← select_single (λ db, service_rows db serviceId);
    match error r, data r with
    | None, Some service =>
      existing ← select_single
        (λ db, filter (λ a, ar_matches memberId serviceId a = true) (attendance_records db));
      match data existing with
      | Some _ => mret (Error "Attendance already marked for this member for this service")
      | None =>
        ins ← insert_attendance_record memberId serviceId (sv_service_date service);
        match error ins with
        | Some msg => mret (Error ("Failed to mark attendance: " +:+ msg))
        | None => revalidatePath "/attendance";; mret Success
        end
      end
    | serviceError, _ =>
      mret (Error ("Failed to fetch service details: " +:+ js_string serviceError))
    end.

(** A [return] inside the branches of the [if] is the [Some] of [returned];
    the statements after the [if] run when no branch returned. *)
Definition toggleAttendance (memberId serviceId : string) : M ActionResult :=
  if falsy (Some memberId) || falsy (Some serviceId)
  then mret (Error "Member and service are required")
  else
    r ← select_single (λ db, service_rows db serviceId);
    match error r, data r with
    | None, Some service =>
      existing ← select_single
        (λ db, filter (λ a, ar_matches memberId serviceId a = true) (attendance_records db));
      returned ←
        match data existing with
        | Some _ =>
          del ← delete_attendance_records memberId serviceId;
          mret (match error del with
                | Some msg => Some (Error ("Failed to unmark attendance: " +:+ msg))
                | None => None
                end)
        | None =>
          ins ← insert_attendance_record memberId serviceId (sv_service_date service);
          mret (match error ins with
                | Some msg => Some (Error ("Failed to mark attendance: " +:+ msg))
                | None => None
                end)
        end;
      match returned with
      | Some result => mret result
      | None => revalidatePath "/attendance";; mret Success
      end
    | serviceError, _ =>
      mret (Error ("Failed to fetch service details: " +:+ js_string serviceError))
    end.

End Actions.

(** ** Ordering of query results

    Modelled from the spec: [.order(column, { ascending })] of the absent
    client. Text and ISO dates are compared by code point, timestamps as
    numbers; the store promises no particular order among rows with equal
    keys, the model takes the one of [merge_sort]. *)

Definition order_rel {A K} (le : K → K → bool) (key : A → K) (ascending : bool) : relation A :=
  λ a b, Is_true (if ascending then le (key a) (key b) else le (key b) (key a)).

#[global] Instance order_rel_dec {A K} (le : K → K → bool) (key : A → K) ascending a b :
  Decision (order_rel le key ascending a b).
Proof. unfold order_rel. apply _. Defined.

Definition order {A K} (le : K → K → bool) (key : A → K) (ascending : bool)
  (rows : list A) : list A :=
  merge_sort (order_rel le key ascending) rows.

Definition text_le : string → string → bool := String.leb.
Definition timestamp_le : N → N → bool := N.leb.

(** ** app/records/page.tsx *)

Module RecordsPage.

Record ServiceRef := mkServiceRef { name : string }.
Record MemberRef := mkMemberRef { full_name : string }.

(** The JSON value the store answers for an embedded relation: one object
    for a many-to-one relation, null when the row has no related row, an
    array for a one-to-many relation. *)
Inductive Embedded (A : Type) : Type :=
  | EmbObject (a : A)
  | EmbNull
  | EmbArray (l : list A).
Arguments EmbObject {A} a.
Arguments EmbNull {A}.
Arguments EmbArray {A} l.

(** [v?.[0]]: an object with the columns of a row has no property [0]. *)
Definition first_element {A} (v : Embedded A) : option A :=
  match v with
  | EmbArray l => head l
  | EmbObject _ => None
  | EmbNull => None
  end.

(** The interface declares [services] and [members] as arrays; the fields
    hold what the store answers. *)
Record AttendanceRecord := mkAttendanceRecord {
  id : string;
  service_date : string;
  services : Embedded ServiceRef;
  members : Embedded MemberRef;
}.

(** Modelled from the spec: the answer of the absent client for the embedded
    relations [services (name)] and [members (full_name)] of one row. Both
    foreign keys of attendance_records are many-to-one, so each relation is
    answered as one object, or null when the referenced row is missing. *)
Definition joined (db : DB) (a : AttendanceRow) : AttendanceRecord :=
  mkAttendanceRecord (ar_id a) (ar_service_date a)
    (match service_rows db (ar_service_id a) with
     | s :: _ => EmbObject (mkServiceRef (sv_name s))
     | [] => EmbNull
     end)
    (match member_rows db (ar_member_id a) with
     | m :: _ => EmbObject (mkMemberRef (m_full_name m))
     | [] => EmbNull
     end).

Definition getAttendanceRecords : M (list AttendanceRecord) :=
  r ← select (λ db, order text_le service_date false (joined db <$> attendance_records db));
  match error r with
  | Some msg => throw ("Failed to fetch attendance records: " +:+ msg)
  | None => mret (default [] (data r))
  end.

(** [record.services?.[0]?.name || 'Unknown Service'] *)
Definition serviceName (record : AttendanceRecord) : string :=
  match first_element (services record) with
  | Some s => if bool_decide (name s = "") then "Unknown Service" else name s
  | None => "Unknown Service"
  end.

(** [record.members?.[0]?.full_name || 'Unknown Member'] *)
Definition memberName (record : AttendanceRecord) : string :=
  match first_element (members record) with
  | Some m => if bool_decide (full_name m = "") then "Unknown Member" else full_name m
  | None => "Unknown Member"
  end.

(** The accumulator starts as [{}], so [acc[k]] for a key it does not own
    reaches [Object.prototype]. *)
Definition object_prototype_keys : list string :=
  [ "constructor"; "hasOwnProperty"; "isPrototypeOf"; "propertyIsEnumerable";
    "toLocaleString"; "toString"; "valueOf"; "__proto__";
    "__defineGetter__"; "__defineSetter__"; "__lookupGetter__"; "__lookupSetter__" ].

Definition group_step (acc : outcome (gmap string (list AttendanceRecord)))
  (record : AttendanceRecord) : outcome (gmap string (list AttendanceRecord)) :=
  match acc with
  | Return acc =>
    let serviceName := serviceName record in
    match acc !! serviceName with
    | Some group => Return (<[serviceName := group ++ [record]]> acc)
    | None =>
      if bool_decide (serviceName ∈ object_prototype_keys)
      then Throw "TypeError: acc[serviceName].push is not a function"
      else Return (<[serviceName := [record]]> acc)
    end
  | stopped => stopped
  end.

(** [records.reduce((acc, record) => ..., {})] *)
Definition recordsByService (records : list AttendanceRecord)
  : outcome (gmap string (list AttendanceRecord)) :=
  foldl group_step (Return ∅) records.

End RecordsPage.

(** ** app/attendance/page.tsx *)

Module AttendancePage.

Record Member := mkMember { id : string; full_name : string }.

Record Service := mkService {
  s_id : string;
  name : string;
  description : option string;
  service_date : string;
}.

Record AttendanceRecord := mkAttendanceRecord {
  a_id : string;
  member_id : string;
  a_service_date : string;
}.

Definition getMembers : M (list Member) :=
  r ← select (λ db, order text_le full_name true
                (((λ kv, mkMember kv.1 (m_full_name kv.2)) <$> map_to_list (members db))));
  match error r with
  | Some msg => throw ("Failed to fetch members: " +:+ msg)
  | None => mret (default [] (data r))
  end.

Definition getServices : M (list Service) :=
  r ← select (λ db, order text_le service_date false
                ((λ kv, mkService kv.1 (sv_name kv.2) (sv_description kv.2) (sv_service_date kv.2))
                   <$> map_to_list (services db)));
  match error r with
  | Some msg => throw ("Failed to fetch services: " +:+ msg)
  | None => mret (default [] (data r))
  end.

Definition getServiceAttendance (serviceId : string) : M (list AttendanceRecord) :=
  r ← select (λ db, (λ a, mkAttendanceRecord (ar_id a) (ar_member_id a) (ar_service_date a))
                <$> filter (λ a, ar_service_id a = serviceId) (attendance_records db));
  match error r with
  | Some msg => throw ("Failed to fetch service attendance: " +:+ msg)
  | None => mret (default [] (data r))
  end.

End AttendancePage.

(** ** app/admin/page.tsx *)

Module AdminPage.

Record Member := mkMember {
  id : string;
  created_at : N;
  full_name : string;
  phone_number : option string;
  email : option string;
}.

Record Service := mkService {
  s_id : string;
  s_created_at : N;
  name : string;
  description : option string;
  service_date : string;
}.

Definition addMember (formData : FormData) : M unit :=
  let full_name := formData_get formData "full_name" in
  let phone_number := formData_get formData "phone_number" in
  let email := formData_get formData "email" in
  if falsy full_name
  then throw "Full name is required"
  else
    r ← insert_member (default "" full_name) phone_number email;
    match error r with
    | Some msg => throw ("Failed to add member: " +:+ msg)
    | None => revalidatePath "/admin";; redirect "/admin?success=member"
    end.

Definition addService (formData : FormData) : M unit :=
  let name := formData_get formData "name" in
  let description := formData_get formData "description" in
  let service_date := formData_get formData "service_date" in
  if falsy name || falsy service_date
  then throw "Service name and date are required"
  else
    r ← insert_service (default "" name) description (default "" service_date);
    match error r with
    | Some msg => throw ("Failed to add service: " +:+ msg)
    | None => revalidatePath "/admin";; redirect "/admin?success=service"
    end.

Definition getMembers : M (list Member) :=
  r ← select (λ db, order timestamp_le created_at false
                ((λ kv, mkMember kv.1 (m_created_at kv.2) (m_full_name kv.2)
                           (m_phone_number kv.2) (m_email kv.2))
                   <$> map_to_list (members db)));
  match error r with
  | Some msg => throw ("Failed to fetch members: " +:+ msg)
  | None => mret (default [] (data r))
  end.

Definition getServices : M (list Service) :=
  r ← select (λ db, order text_le service_date false
                ((λ kv, mkService kv.1 (sv_created_at kv.2) (sv_name kv.2)
                           (sv_description kv.2) (sv_service_date kv.2))
                   <$> map_to_list (services db)));
  match error r with
  | Some msg => throw ("Failed to fetch services: " +:+ msg)
  | None => mret (default [] (data r))
  end.

End AdminPage.

(** ** Vocabulary of the statements *)

(** The AttendanceRecords of the pair (member, service). *)
Definition records_for (member_id service_id : string) (db : DB) : list AttendanceRow :=
  filter (λ a, ar_matches member_id service_id a = true) (attendance_records db).

(** At most one AttendanceRecord per (member, service) pair. *)
Definition at_most_one (db : DB) : Prop :=
  ∀ member_id service_id, length (records_for member_id service_id db) ≤ 1.

(** The fault the next store call will meet, and a script without faults. *)
Definition fault_of (fs : list (option string)) : option string := default None (head fs).
Definition healthy (fs : list (option string)) : Prop := Forall (λ f, f = None) fs.

(** Referential integrity of attendance_records. *)
Definition references_ok (db : DB) : Prop :=
  Forall (λ a, is_Some (members db !! ar_member_id a) ∧ is_Some (services db !! ar_service_id a))
    (attendance_records db).

Definition with_attendance (db : DB) (rows : list AttendanceRow) (seq : N) : DB :=
  mkDB (members db) (services db) rows seq.

(** The database after the insert, and after the delete, of the record of a pair. *)
Definition marked (db : DB) (member_id service_id service_date : string) : DB :=
  with_attendance db
    (attendance_records db ++
       [mkAttendanceRow (gen_random_uuid db) member_id service_id service_date])
    (N.succ (db_seq db)).

Definition unmarked (db : DB) (member_id service_id : string) : DB :=
  with_attendance db
    (filter (λ r, ar_matches member_id service_id r = false) (attendance_records db))
    (db_seq db).

Definition is_prefix_of (p s : string) : Prop := ∃ rest, s = p +:+ rest.

Import Actions.

(** What the insert branch of both actions does from a world. *)
Definition insert_branch (m s d : string) (db : DB) (fs : list (option string))
  (rv : list string) : outcome ActionResult * World :=
  match fault_of fs with
  | Some e => (Return (Error ("Failed to mark attendance: " +:+ e)), mkWorld db (tail fs) rv)
  | None =>
    if bool_decide (is_Some (members db !! m)) && bool_decide (is_Some (services db !! s))
    then (Return Success, mkWorld (marked db m s d) (tail fs) (rv ++ ["/attendance"]))
    else (Return (Error ("Failed to mark attendance: " +:+
                         "insert on table attendance_records violates foreign key constraint")),
          mkWorld db (tail fs) rv)
  end.

(** What the delete branch of [toggleAttendance] does from a world. *)
Definition delete_branch (m s : string) (db : DB) (fs : list (option string))
  (rv : list string) : outcome ActionResult * World :=
  match fault_of fs with
  | Some e => (Return (Error ("Failed to unmark attendance: " +:+ e)), mkWorld db (tail fs) rv)
  | None => (Return Success, mkWorld (unmarked db m s) (tail fs) (rv ++ ["/attendance"]))
  end.

Definition no_rows : string := "JSON object requested, multiple (or no) rows returned".


(** A value read from a form is empty when it is missing or the empty string. *)
Definition empty_id (v : option string) : Prop := v = None ∨ v = Some "".

(** Sequential execution: each action runs to completion from the world the
    previous one left. *)
Fixpoint run_seq (acts : list (M ActionResult)) (w : World)
  : list (outcome ActionResult) * World :=
  match acts with
  | [] => ([], w)
  | act :: acts' =>
    let '(r, w') := act w in
    let '(rs, w'') := run_seq acts' w' in
    (r :: rs, w'')
  end.

(** ** The scenario of the specification

    Service 'Sunday Service' dated 2024-01-07, member 'Jane Doe'; a second
    member and a second service of the same name a week later. *)
Definition jane : string := "4f1c-jane".
Definition john : string := "7a2e-john".
Definition sunday : string := "b3d0-sunday-07".
Definition next_sunday : string := "c9e4-sunday-14".

Definition scenario_db : DB :=
  mkDB
    (<[jane := mkMemberRow 1 "Jane Doe" None None]>
       (<[john := mkMemberRow 2 "John Adams" (Some "555-0101") None]> ∅))
    (<[sunday := mkServiceRow 3 "Sunday Service" None "2024-01-07"]>
       (<[next_sunday := mkServiceRow 4 "Sunday Service" (Some "second week") "2024-01-14"]> ∅))
    [] 5.

Definition scenario : World := mkWorld scenario_db [] [].

Definition jane_sunday : FormData := [("serviceId", sunday); ("memberId", jane)].

(** ** Vocabulary of the query statements *)

Definition ascending {A K} (le : K → K → bool) (key : A → K) (l : list A) : Prop :=
  StronglySorted (λ a b, le (key a) (key b) = true) l.

Definition descending {A K} (le : K → K → bool) (key : A → K) (l : list A) : Prop :=
  StronglySorted (λ a b, le (key b) (key a) = true) l.

(** [l] lists every row of the members table once, with its id and full name. *)
Definition all_members {Member} (id full_name : Member → string) (db : DB) (l : list Member)
  : Prop :=
  (λ r, (id r, full_name r)) <$> l ≡ₚ (λ kv, (kv.1, m_full_name kv.2)) <$> map_to_list (members db).

(** A member listing that answers, when its query is answered, with all
    members ordered by full name ascending. *)
Definition lists_members_by_name {Member} (getMembers : M (list Member))
  (id full_name : Member → string) : Prop :=
  ∀ db fs rv, fault_of fs = None →
    ∃ l, getMembers (mkWorld db fs rv) = (Return l, mkWorld db (tail fs) rv) ∧
         all_members id full_name db l ∧
         ascending text_le full_name l.

Definition never_throws {A} (c : M A) : Prop := ∀ w msg, (c w).1 ≠ Throw msg.

Definition returns_result {A} (c : M A) : Prop := ∀ w, ∃ r, (c w).1 = Return r.

(** The AttendanceRecord [a] enriched with the name of its Service and the
    full name of its Member. *)
Definition enriched (db : DB) (a : AttendanceRow) (r : RecordsPage.AttendanceRecord) : Prop :=
  ∃ svc mem,
    services db !! ar_service_id a = Some svc ∧
    members db !! ar_member_id a = Some mem ∧
    r = RecordsPage.mkAttendanceRecord (ar_id a) (ar_service_date a)
          (RecordsPage.EmbObject (RecordsPage.mkServiceRef (sv_name svc)))
          (RecordsPage.EmbObject (RecordsPage.mkMemberRef (m_full_name mem))).




(** Jane attended both Sunday services. *)
Definition two_sundays_db : DB :=
  marked (marked scenario_db jane sunday "2024-01-07") jane next_sunday "2024-01-14".

(** A store whose services have different names: Jane and John attended the
    Sunday service, John the midweek one. *)
Definition midweek : string := "d5a1-midweek-10".

Definition weekly_db : DB :=
  mkDB
    (<[jane := mkMemberRow 1 "Jane Doe" None None]>
       (<[john := mkMemberRow 2 "John Adams" (Some "555-0101") None]> ∅))
    (<[sunday := mkServiceRow 3 "Sunday Service" None "2024-01-07"]>
       (<[midweek := mkServiceRow 4 "Midweek Prayer" None "2024-01-10"]> ∅))
    [ mkAttendanceRow "5" jane sunday "2024-01-07";
      mkAttendanceRow "6" john midweek "2024-01-10";
      mkAttendanceRow "7" john sunday "2024-01-07" ]
    8.

(** ** app/attendance/page.tsx: the attendance table and the form *)

Module AttendanceView.

Import AttendancePage.

(** [new Set(serviceAttendance.map(record => record.member_id))] *)
Definition attendedMemberIds (serviceAttendance : list AttendanceRecord) : gset string :=
  list_to_set (member_id <$> serviceAttendance).

(** [attendedMemberIds.has(member.id) ? 'Present' : 'Absent'] *)
Definition status (serviceAttendance : list AttendanceRecord) (member : Member) : string :=
  if bool_decide (id member ∈ attendedMemberIds serviceAttendance)
  then "Present" else "Absent".

(** [setTimeout(() => setErrorMessage(''), ms)]: the timer is recorded, not run. *)
Inductive Timer :=
  | ClearErrorMessage (ms : N)
  | ClearSuccessMessage (ms : N).

(** The [useState] cells the handlers write. *)
Record PageState := mkPageState {
  serviceAttendance : list AttendanceRecord;
  errorMessage : string;
  successMessage : string;
  timers : list Timer;
}.

(** [result.error] *)
Definition result_error (result : ActionResult) : option string :=
  match result with
  | Error msg => Some msg
  | Success => None
  end.

(** The [onClick] of a member's status button, inside [startTransition]. *)
Definition onStatusClick (member : Member) (selectedServiceId : string) (st : PageState)
  : M PageState :=
  result ← toggleAttendance (id member) selectedServiceId;
  if negb (falsy (result_error result))
  then
    mret (mkPageState (serviceAttendance st) (default "" (result_error result)) ""
            (timers st ++ [ClearErrorMessage 5000]))
  else
    attendanceData ← getServiceAttendance selectedServiceId;
    mret (mkPageState attendanceData "" (successMessage st) (timers st)).

(** The effect on [selectedServiceId]: [fetchAttendance]. *)
Definition fetchAttendance (selectedServiceId : string) (st : PageState) : M PageState :=
  if negb (falsy (Some selectedServiceId))
  then
    attendanceData ← getServiceAttendance selectedServiceId;
    mret (mkPageState attendanceData (errorMessage st) (successMessage st) (timers st))
  else mret (mkPageState [] (errorMessage st) (successMessage st) (timers st)).

Section string_methods.
(** [String.prototype.toLowerCase] and [startsWith] of the runtime. *)
Variable toLowerCase : string → string.
Variable startsWith : string → string → bool.

Definition filteredMembers (members : list Member) (selectedLetter : string) : list Member :=
  if falsy (Some selectedLetter)
  then members
  else filter (λ member,
                 startsWith (toLowerCase (full_name member)) (toLowerCase selectedLetter) = true)
         members.

(** The [disabled] of the submit button:
    [isPending || !selectedServiceId || selectedLetter ? ... : ...], where the
    conditional operator binds weaker than [||]. *)
Definition submitDisabled (isPending : bool)
  (selectedServiceId selectedLetter selectedMemberId : string) (members : list Member) : bool :=
  if isPending || falsy (Some selectedServiceId) || negb (falsy (Some selectedLetter))
  then bool_decide (length (filteredMembers members selectedLetter) = 0)
       || falsy (Some selectedMemberId)
  else bool_decide (length members = 0) || falsy (Some selectedMemberId).
End string_methods.

End AttendanceView.

(** ** Vocabulary of the further statements *)

(** A call of one of the two server actions. *)
Inductive Request :=
  | Mark (formData : FormData)
  | Toggle (memberId serviceId : string).

Definition perform (r : Request) : M ActionResult :=
  match r with
  | Mark formData => markAttendance formData
  | Toggle memberId serviceId => toggleAttendance memberId serviceId
  end.

(** No two services share a date. *)
Definition dates_unique (db : DB) : Prop :=
  ∀ s1 s2 svc1 svc2,
    services db !! s1 = Some svc1 → services db !! s2 = Some svc2 →
    sv_service_date svc1 = sv_service_date svc2 → s1 = s2.

(** [l] lists every row of the services table once, with its id, name and date. *)
Definition all_services {Service} (id name date : Service → string) (db : DB)
  (l : list Service) : Prop :=
  (λ r, (id r, name r, date r)) <$> l ≡ₚ
  (λ kv, (kv.1, sv_name kv.2, sv_service_date kv.2)) <$> map_to_list (services db).

(** What a run of an action did to the world. *)
Definition db_after {A} (c : M A) (w : World) : DB := w_db (c w).2.
Definition revalidated_after {A} (c : M A) (w : World) : list string := w_revalidated (c w).2.

(** The three ways a run of an action on the pair (m, s) ends: an error that
    changed nothing, an insert, a delete. *)
Inductive action_effect (m s : string) (db : DB) (rv : list string)
  : outcome ActionResult * World → Prop :=
  | effect_error msg fs' :
      action_effect m s db rv (Return (Error msg), mkWorld db fs' rv)
  | effect_insert svc fs' :
      m ≠ "" → s ≠ "" →
      services db !! s = Some svc → is_Some (members db !! m) →
      action_effect m s db rv
        (Return Success,
         mkWorld (marked db m s (sv_service_date svc)) fs' (rv ++ ["/attendance"]))
  | effect_delete fs' :
      m ≠ "" → s ≠ "" →
      action_effect m s db rv
        (Return Success, mkWorld (unmarked db m s) fs' (rv ++ ["/attendance"])).

(** The database after the store accepted a new member, and a new service. *)
Definition with_member (db : DB) (full_name : string) (phone_number email : option string)
  : DB :=
  mkDB (<[gen_random_uuid db := mkMemberRow (db_seq db) full_name phone_number email]>
          (members db))
    (services db) (attendance_records db) (N.succ (db_seq db)).

Definition with_service (db : DB) (name : string) (description : option string)
  (service_date : string) : DB :=
  mkDB (members db)
    (<[gen_random_uuid db := mkServiceRow (db_seq db) name description service_date]>
       (services db))
    (attendance_records db) (N.succ (db_seq db)).
(** ** Vocabulary of the listings and of the group counts *)

(** [l] lists every row of the members table once, with all its columns. *)
Definition all_member_rows (db : DB) (l : list AdminPage.Member) : Prop :=
  (λ r, (AdminPage.id r,
         mkMemberRow (AdminPage.created_at r) (AdminPage.full_name r)
           (AdminPage.phone_number r) (AdminPage.email r))) <$> l
  ≡ₚ map_to_list (members db).

(** [l] lists every row of the services table once, with all its columns. *)
Definition all_service_rows (db : DB) (l : list AdminPage.Service) : Prop :=
  (λ r, (AdminPage.s_id r,
         mkServiceRow (AdminPage.s_created_at r) (AdminPage.name r)
           (AdminPage.description r) (AdminPage.service_date r))) <$> l
  ≡ₚ map_to_list (services db).

(** [l] lists every row of the services table once, with the columns the
    attendance page declares. *)
Definition all_listed_services (db : DB) (l : list AttendancePage.Service) : Prop :=
  (λ r, (AttendancePage.s_id r, AttendancePage.name r, AttendancePage.description r,
         AttendancePage.service_date r)) <$> l
  ≡ₚ (λ kv, (kv.1, sv_name kv.2, sv_description kv.2, sv_service_date kv.2))
       <$> map_to_list (services db).





(** * Laws of the store client *)

Lemma bind_eq {A B} (c : M A) (k : A → M B) w :
  (c ≫= k) w =
  match c w with
  | (Return a, w') => k a w'
  | (Throw msg, w') => (Throw msg, w')
  | (Redirect url, w') => (Redirect url, w')
  end.
Proof. reflexivity. Qed.

Section store_laws.
Context (db : DB) (fs : list (option string)) (rv : list string).

Lemma healthy_fault_of : healthy fs → fault_of fs = None.
Proof. destruct 1; [reflexivity | assumption]. Qed.

Lemma healthy_tail : healthy fs → healthy (tail fs).
Proof. destruct 1; [constructor | assumption]. Qed.

Lemma select_eq {A} (rows : DB → list A) :
  select rows (mkWorld db fs rv) =
  (Return (match fault_of fs with Some msg => failed msg | None => ok (rows db) end),
   mkWorld db (tail fs) rv).
Proof. destruct fs as [|[msg|] fs']; reflexivity. Qed.

Lemma select_single_eq {A} (rows : DB → list A) :
  select_single rows (mkWorld db fs rv) =
  (Return (match fault_of fs with Some msg => failed msg | None => single (rows db) end),
   mkWorld db (tail fs) rv).
Proof. destruct fs as [|[msg|] fs']; reflexivity. Qed.

Lemma insert_attendance_record_eq m s d :
  insert_attendance_record m s d (mkWorld db fs rv) =
  match fault_of fs with
  | Some msg => (Return (failed msg), mkWorld db (tail fs) rv)
  | None =>
    if bool_decide (is_Some (members db !! m)) && bool_decide (is_Some (services db !! s))
    then (Return (mkResponse None None), mkWorld (marked db m s d) (tail fs) rv)
    else (Return (failed "insert on table attendance_records violates foreign key constraint"),
          mkWorld db (tail fs) rv)
  end.
Proof.
  unfold insert_attendance_record, mbind, M_bind, mret, M_ret, next_fault, get_db, put_db.
  destruct fs as [|[msg|] fs']; cbn; try reflexivity;
    destruct (bool_decide _ && bool_decide _); reflexivity.
Qed.

Lemma delete_attendance_records_eq m s :
  delete_attendance_records m s (mkWorld db fs rv) =
  match fault_of fs with
  | Some msg => (Return (failed msg), mkWorld db (tail fs) rv)
  | None =>
    (Return (mkResponse None None), mkWorld (unmarked db m s) (tail fs) rv)
  end.
Proof. destruct fs as [|[msg|] fs']; reflexivity. Qed.
End store_laws.

Lemma service_rows_single db s :
  single (service_rows db s) =
  match services db !! s with
  | Some svc => ok svc
  | None => failed "JSON object requested, multiple (or no) rows returned"
  end.
Proof. unfold service_rows, by_id. destruct (services db !! s); reflexivity. Qed.

Lemma falsy_Some s : falsy (Some s) = bool_decide (s = "").
Proof. reflexivity. Qed.

Lemma ar_matches_true m s a :
  ar_matches m s a = true ↔ ar_member_id a = m ∧ ar_service_id a = s.
Proof.
  unfold ar_matches. rewrite andb_true_iff, !bool_decide_eq_true. reflexivity.
Qed.

(** * Runs of the server actions *)

Ltac store_call :=
  rewrite bind_eq;
  first [ rewrite select_single_eq | rewrite select_eq
        | rewrite insert_attendance_record_eq | rewrite delete_attendance_records_eq ];
  cbv beta.

Lemma insert_step m s d db fs rv :
  (insert_attendance_record m s d ≫= λ ins,
     match error ins with
     | Some msg => mret (Error ("Failed to mark attendance: " +:+ msg))
     | None => revalidatePath "/attendance";; mret Success
     end) (mkWorld db fs rv) = insert_branch m s d db fs rv.
Proof.
  store_call. unfold insert_branch.
  destruct (fault_of fs); [reflexivity|].
  destruct (bool_decide _ && bool_decide _); reflexivity.
Qed.

Lemma toggle_insert_step m s d db fs rv :
  ((insert_attendance_record m s d ≫= λ ins,
      mret (match error ins with
            | Some msg => Some (Error ("Failed to mark attendance: " +:+ msg))
            | None => None
            end)) ≫= λ returned,
     match returned with
     | Some result => mret result
     | None => revalidatePath "/attendance";; mret Success
     end) (mkWorld db fs rv) = insert_branch m s d db fs rv.
Proof.
  rewrite bind_eq. store_call. unfold insert_branch.
  destruct (fault_of fs); [reflexivity|].
  destruct (bool_decide _ && bool_decide _); reflexivity.
Qed.

Lemma toggle_delete_step m s db fs rv :
  ((delete_attendance_records m s ≫= λ del,
      mret (match error del with
            | Some msg => Some (Error ("Failed to unmark attendance: " +:+ msg))
            | None => None
            end)) ≫= λ returned,
     match returned with
     | Some result => mret result
     | None => revalidatePath "/attendance";; mret Success
     end) (mkWorld db fs rv) = delete_branch m s db fs rv.
Proof.
  rewrite bind_eq. store_call. unfold delete_branch.
  destruct (fault_of fs); reflexivity.
Qed.

Lemma toggleAttendance_run m s db fs rv :
  m ≠ "" → s ≠ "" →
  toggleAttendance m s (mkWorld db fs rv) =
  match fault_of fs, services db !! s with
  | None, Some svc =>
    match fault_of (tail fs), records_for m s db with
    | None, [_] => delete_branch m s db (tail (tail fs)) rv
    | _, _ => insert_branch m s (sv_service_date svc) db (tail (tail fs)) rv
    end
  | Some e, _ =>
    (Return (Error ("Failed to fetch service details: " +:+ e)), mkWorld db (tail fs) rv)
  | None, None =>
    (Return (Error ("Failed to fetch service details: " +:+ no_rows)), mkWorld db (tail fs) rv)
  end.
Proof.
  intros Hm Hs. unfold toggleAttendance.
  rewrite !falsy_Some, !bool_decide_eq_false_2 by assumption. cbn [orb].
  store_call. rewrite service_rows_single.
  destruct (fault_of fs) as [e|]; [reflexivity|].
  destruct (services db !! s) as [svc|]; [|reflexivity].
  cbn [error data ok]. store_call. fold (records_for m s db).
  destruct (fault_of (tail fs)) as [e|]; cbn [data failed].
  - apply toggle_insert_step.
  - destruct (records_for m s db) as [|a [|b l]]; cbn [single data failed ok].
    + apply toggle_insert_step.
    + apply toggle_delete_step.
    + apply toggle_insert_step.
Qed.

Lemma markAttendance_run fd m s db fs rv :
  formData_get fd "memberId" = Some m →
  formData_get fd "serviceId" = Some s →
  m ≠ "" → s ≠ "" →
  markAttendance fd (mkWorld db fs rv) =
  match fault_of fs, services db !! s with
  | None, Some svc =>
    match fault_of (tail fs), records_for m s db with
    | None, [_] =>
      (Return (Error "Attendance already marked for this member for this service"),
       mkWorld db (tail (tail fs)) rv)
    | _, _ => insert_branch m s (sv_service_date svc) db (tail (tail fs)) rv
    end
  | Some e, _ =>
    (Return (Error ("Failed to fetch service details: " +:+ e)), mkWorld db (tail fs) rv)
  | None, None =>
    (Return (Error ("Failed to fetch service details: " +:+ no_rows)), mkWorld db (tail fs) rv)
  end.
Proof.
  intros Hfm Hfs Hm Hs. unfold markAttendance.
  rewrite Hfm, Hfs, !falsy_Some, !bool_decide_eq_false_2 by assumption.
  cbn [orb from_option id].
  store_call. rewrite service_rows_single.
  destruct (fault_of fs) as [e|]; [reflexivity|].
  destruct (services db !! s) as [svc|]; [|reflexivity].
  cbn [error data ok]. store_call. fold (records_for m s db).
  destruct (fault_of (tail fs)) as [e|]; cbn [data failed].
  - apply insert_step.
  - destruct (records_for m s db) as [|a [|b l]]; cbn [single data failed ok].
    + apply insert_step.
    + reflexivity.
    + apply insert_step.
Qed.

Create HintDb store.
#[local] Hint Resolve healthy_tail healthy_fault_of : store.

Lemma records_for_marked db m s d m' s' :
  records_for m' s' (marked db m s d) =
  records_for m' s' db ++
    (if ar_matches m' s' (mkAttendanceRow (gen_random_uuid db) m s d)
     then [mkAttendanceRow (gen_random_uuid db) m s d] else []).
Proof.
  unfold marked, records_for, with_attendance; cbn [attendance_records].
  rewrite filter_app. f_equal.
  rewrite filter_cons, filter_nil.
  destruct (ar_matches m' s' _); [rewrite decide_True by done | rewrite decide_False by done];
    reflexivity.
Qed.

Lemma ar_matches_refl id m s d : ar_matches m s (mkAttendanceRow id m s d) = true.
Proof. apply ar_matches_true. split; reflexivity. Qed.

Lemma records_for_unmarked_same db m s : records_for m s (unmarked db m s) = [].
Proof.
  unfold unmarked, records_for, with_attendance; cbn [attendance_records].
  induction (attendance_records db) as [|a l IH]; [reflexivity|].
  rewrite (filter_cons _ a l).
  destruct (decide (ar_matches m s a = false)) as [Hf|Hf]; [|exact IH].
  rewrite filter_cons, decide_False by congruence. exact IH.
Qed.

Lemma empty_id_falsy v : empty_id v → falsy v = true.
Proof. intros [-> | ->]; reflexivity. Qed.

(** * Validation *)

Lemma markAttendance_invalid fd w :
  empty_id (formData_get fd "memberId") ∨ empty_id (formData_get fd "serviceId") →
  markAttendance fd w = (Return (Error "Member and service are required"), w).
Proof.
  intros Hfd. unfold markAttendance.
  assert (falsy (formData_get fd "memberId") || falsy (formData_get fd "serviceId") = true)
    as ->; [|reflexivity].
  apply orb_true_iff. destruct Hfd as [H|H]; [left|right]; apply empty_id_falsy, H.
Qed.

Lemma toggleAttendance_invalid m s w :
  m = "" ∨ s = "" →
  toggleAttendance m s w = (Return (Error "Member and service are required"), w).
Proof.
  intros Hms. unfold toggleAttendance.
  assert (falsy (Some m) || falsy (Some s) = true) as ->; [|reflexivity].
  apply orb_true_iff. rewrite !falsy_Some, !bool_decide_eq_true. exact Hms.
Qed.

(** C4: with an empty memberId or serviceId both actions answer 'Member and
    service are required' and hand back the world they were given: the
    database, the script of pending store calls and the revalidation log are
    untouched, so no store call was issued. *)
Theorem empty_ids_rejected (fd : FormData) (m s : string) (w : World) :
  empty_id (formData_get fd "memberId") ∨ empty_id (formData_get fd "serviceId") →
  m = "" ∨ s = "" →
  markAttendance fd w = (Return (Error "Member and service are required"), w) ∧
  toggleAttendance m s w = (Return (Error "Member and service are required"), w).
Proof.
  intros Hfd Hms. split.
  - apply markAttendance_invalid, Hfd.
  - apply toggleAttendance_invalid, Hms.
Qed.

Lemma empty_ids_rejected_witness :
  markAttendance [("memberId", jane)] scenario =
    (Return (Error "Member and service are required"), scenario) ∧
  toggleAttendance jane "" scenario =
    (Return (Error "Member and service are required"), scenario).
Proof.
  apply (empty_ids_rejected [("memberId", jane)] jane "" scenario).
  - right. left. reflexivity.
  - right. reflexivity.
Defined.

(** * Service lookup *)

(** C8: with both identifiers non-empty, when the services table has no row
    with the given id, or the lookup itself fails, both actions answer an
    error that begins with 'Failed to fetch service details' and leave the
    database as it was. *)
Theorem service_lookup_failure (fd : FormData) (m s : string) (db : DB)
  (fs : list (option string)) (rv : list string) :
  formData_get fd "memberId" = Some m →
  formData_get fd "serviceId" = Some s →
  m ≠ "" → s ≠ "" →
  services db !! s = None ∨ is_Some (fault_of fs) →
  ∃ msg,
    is_prefix_of "Failed to fetch service details" msg ∧
    markAttendance fd (mkWorld db fs rv) = (Return (Error msg), mkWorld db (tail fs) rv) ∧
    toggleAttendance m s (mkWorld db fs rv) = (Return (Error msg), mkWorld db (tail fs) rv).
Proof.
  intros Hfm Hfs Hm Hs Hfail.
  rewrite (markAttendance_run fd m s) by assumption.
  rewrite toggleAttendance_run by assumption.
  destruct (fault_of fs) as [e|] eqn:Hf.
  - exists ("Failed to fetch service details: " +:+ e).
    split; [exists (": " +:+ e); reflexivity | split; reflexivity].
  - destruct Hfail as [Hnone | [e He]]; [|discriminate].
    rewrite Hnone. exists ("Failed to fetch service details: " +:+ no_rows).
    split; [exists (": " +:+ no_rows); reflexivity | split; reflexivity].
Qed.

Lemma service_lookup_failure_witness :
  ∃ msg,
    is_prefix_of "Failed to fetch service details" msg ∧
    markAttendance jane_sunday (mkWorld scenario_db [Some "fetch failed"] []) =
      (Return (Error msg), mkWorld scenario_db [] []) ∧
    toggleAttendance jane sunday (mkWorld scenario_db [Some "fetch failed"] []) =
      (Return (Error msg), mkWorld scenario_db [] []).
Proof.
  apply (service_lookup_failure jane_sunday jane sunday scenario_db [Some "fetch failed"] []);
    [reflexivity | reflexivity | discriminate | discriminate |].
  right. exists "fetch failed". reflexivity.
Defined.

(** * Marking and toggling on a store that answers *)

Section working_store.
Context (m s : string) (db : DB) (fs : list (option string)) (rv : list string).
Context (mrow : MemberRow) (svc : ServiceRow).
Hypothesis (Hm : m ≠ "") (Hs : s ≠ "").
Hypothesis (Hmember : members db !! m = Some mrow).
Hypothesis (Hservice : services db !! s = Some svc).
Hypothesis (Hfs : healthy fs).

Let new_row := mkAttendanceRow (gen_random_uuid db) m s (sv_service_date svc).

Lemma insert_branch_ok fs' rv' :
  healthy fs' →
  insert_branch m s (sv_service_date svc) db fs' rv' =
  (Return Success,
   mkWorld (marked db m s (sv_service_date svc)) (tail fs') (rv' ++ ["/attendance"])).
Proof.
  intros Hfs'. unfold insert_branch.
  rewrite (healthy_fault_of _ Hfs'), Hmember, Hservice.
  rewrite !bool_decide_eq_true_2 by eauto. reflexivity.
Qed.

Lemma toggle_absent :
  records_for m s db = [] →
  toggleAttendance m s (mkWorld db fs rv) =
  (Return Success,
   mkWorld (marked db m s (sv_service_date svc)) (tail (tail (tail fs)))
     (rv ++ ["/attendance"])).
Proof.
  intros Hnone. rewrite toggleAttendance_run by assumption.
  rewrite (healthy_fault_of fs), Hservice, Hnone by auto.
  rewrite insert_branch_ok by auto with store.
  destruct (fault_of (tail fs)); reflexivity.
Qed.

Lemma toggle_present a :
  records_for m s db = [a] →
  toggleAttendance m s (mkWorld db fs rv) =
  (Return Success, mkWorld (unmarked db m s) (tail (tail (tail fs))) (rv ++ ["/attendance"])).
Proof.
  intros Hone. rewrite toggleAttendance_run by assumption.
  rewrite (healthy_fault_of fs), Hservice, Hone by auto.
  rewrite (healthy_fault_of (tail fs)) by auto with store.
  unfold delete_branch. rewrite (healthy_fault_of (tail (tail fs))) by auto with store.
  reflexivity.
Qed.

Lemma mark_absent fd :
  formData_get fd "memberId" = Some m →
  formData_get fd "serviceId" = Some s →
  records_for m s db = [] →
  markAttendance fd (mkWorld db fs rv) =
  (Return Success,
   mkWorld (marked db m s (sv_service_date svc)) (tail (tail (tail fs)))
     (rv ++ ["/attendance"])).
Proof.
  intros Hfm Hfsv Hnone. rewrite (markAttendance_run fd m s) by assumption.
  rewrite (healthy_fault_of fs), Hservice, Hnone by auto.
  rewrite insert_branch_ok by auto with store.
  destruct (fault_of (tail fs)); reflexivity.
Qed.

Lemma mark_present fd a :
  formData_get fd "memberId" = Some m →
  formData_get fd "serviceId" = Some s →
  records_for m s db = [a] →
  markAttendance fd (mkWorld db fs rv) =
  (Return (Error "Attendance already marked for this member for this service"),
   mkWorld db (tail (tail fs)) rv).
Proof.
  intros Hfm Hfsv Hone. rewrite (markAttendance_run fd m s) by assumption.
  rewrite (healthy_fault_of fs), Hservice, Hone by auto.
  rewrite (healthy_fault_of (tail fs)) by auto with store.
  reflexivity.
Qed.

Lemma records_for_marked_same :
  records_for m s db = [] →
  records_for m s (marked db m s (sv_service_date svc)) = [new_row].
Proof.
  intros Hnone. rewrite records_for_marked, Hnone, ar_matches_refl. reflexivity.
Qed.
End working_store.

Lemma run_seq_app acts1 acts2 w :
  run_seq (acts1 ++ acts2) w =
  let '(rs1, w1) := run_seq acts1 w in
  let '(rs2, w2) := run_seq acts2 w1 in
  (rs1 ++ rs2, w2).
Proof.
  revert w. induction acts1 as [|act acts1 IH]; intros w; cbn [run_seq app].
  - destruct (run_seq acts2 w); reflexivity.
  - destruct (act w) as [r w']. rewrite IH.
    destruct (run_seq acts1 w') as [rs1 w1]. destruct (run_seq acts2 w1); reflexivity.
Qed.

Lemma toggle_twice m s db fs rv mrow svc :
  m ≠ "" → s ≠ "" →
  members db !! m = Some mrow →
  services db !! s = Some svc →
  healthy fs →
  records_for m s db = [] →
  run_seq [toggleAttendance m s; toggleAttendance m s] (mkWorld db fs rv) =
  ([Return Success; Return Success],
   mkWorld (unmarked (marked db m s (sv_service_date svc)) m s)
     (tail (tail (tail (tail (tail (tail fs))))))
     ((rv ++ ["/attendance"]) ++ ["/attendance"])).
Proof.
  intros Hm Hs Hmember Hservice Hfs Hnone. cbn [run_seq].
  rewrite (toggle_absent m s db fs rv mrow svc) by assumption.
  rewrite (toggle_present m s (marked db m s (sv_service_date svc)) _ _ svc
             Hm Hs Hservice) with (a := mkAttendanceRow (gen_random_uuid db) m s (sv_service_date svc)).
  - reflexivity.
  - auto with store.
  - apply (records_for_marked_same m s db svc), Hnone.
Qed.

(** * C1 *)

(** C1: for a member m and a service s of the store, with no AttendanceRecord
    for (m, s) and a store that answers, the first markAttendance succeeds,
    the second answers 'Attendance already marked for this member for this
    service' and leaves the database as the first call left it, with exactly
    one AttendanceRecord for (m, s). *)
Theorem markAttendance_twice (fd : FormData) (m s : string) (db : DB)
  (fs : list (option string)) (rv : list string) (mrow : MemberRow) (svc : ServiceRow) :
  formData_get fd "memberId" = Some m →
  formData_get fd "serviceId" = Some s →
  m ≠ "" → s ≠ "" →
  members db !! m = Some mrow →
  services db !! s = Some svc →
  healthy fs →
  records_for m s db = [] →
  let first := markAttendance fd (mkWorld db fs rv) in
  let second := markAttendance fd first.2 in
  first.1 = Return Success ∧
  second.1 = Return (Error "Attendance already marked for this member for this service") ∧
  w_db second.2 = w_db first.2 ∧
  length (records_for m s (w_db second.2)) = 1.
Proof.
  intros Hfm Hfsv Hm Hs Hmember Hservice Hfs Hnone first second.
  subst second first.
  rewrite (mark_absent m s db fs rv mrow svc) by assumption.
  cbn [fst snd].
  rewrite (mark_present m s (marked db m s (sv_service_date svc)) _ _ svc Hm Hs Hservice)
    with (a := mkAttendanceRow (gen_random_uuid db) m s (sv_service_date svc)).
  - cbn [fst snd w_db].
    rewrite (records_for_marked_same m s db svc) by assumption.
    repeat split; reflexivity.
  - auto with store.
  - assumption.
  - assumption.
  - apply (records_for_marked_same m s db svc), Hnone.
Qed.

Lemma markAttendance_twice_witness :
  let first := markAttendance jane_sunday scenario in
  let second := markAttendance jane_sunday first.2 in
  first.1 = Return Success ∧
  second.1 = Return (Error "Attendance already marked for this member for this service") ∧
  w_db second.2 = w_db first.2 ∧
  length (records_for jane sunday (w_db second.2)) = 1.
Proof.
  apply (markAttendance_twice jane_sunday jane sunday scenario_db [] []
           (mkMemberRow 1 "Jane Doe" None None)
           (mkServiceRow 3 "Sunday Service" None "2024-01-07"));
    try reflexivity; try discriminate.
  constructor.
Defined.

(** * C2 *)

(** C2: for a member m and an existing service s, on a store that answers,
    toggleAttendance creates the record of the pair, carrying the service's
    current date, when the pair has none ([db0]), and deletes it when the
    pair has one ([db1]); from zero records two calls in sequence, and four,
    leave zero records for the pair. *)
Theorem toggleAttendance_flips (m s : string) (db0 db1 : DB) (a : AttendanceRow)
  (fs : list (option string)) (rv : list string) (mrow : MemberRow) (svc svc1 : ServiceRow) :
  m ≠ "" → s ≠ "" →
  healthy fs →
  members db0 !! m = Some mrow →
  services db0 !! s = Some svc →
  records_for m s db0 = [] →
  services db1 !! s = Some svc1 →
  records_for m s db1 = [a] →
  let toggle := toggleAttendance m s in
  let w0 := mkWorld db0 fs rv in
  let w1 := mkWorld db1 fs rv in
  ((toggle w0).1 = Return Success ∧
   ∃ id, records_for m s (w_db (toggle w0).2) = [mkAttendanceRow id m s (sv_service_date svc)]) ∧
  ((toggle w1).1 = Return Success ∧ records_for m s (w_db (toggle w1).2) = []) ∧
  records_for m s (w_db (run_seq [toggle; toggle] w0).2) = [] ∧
  records_for m s (w_db (run_seq [toggle; toggle; toggle; toggle] w0).2) = [].
Proof.
  intros Hm Hs Hfs Hmember Hservice Hnone Hservice1 Hone toggle w0 w1. subst toggle w0 w1.
  pose proof (toggle_twice m s db0 fs rv mrow svc Hm Hs Hmember Hservice Hfs Hnone) as H2.
  repeat split.
  - rewrite (toggle_absent m s db0 fs rv mrow svc) by assumption. reflexivity.
  - rewrite (toggle_absent m s db0 fs rv mrow svc) by assumption.
    exists (gen_random_uuid db0). apply (records_for_marked_same m s db0 svc), Hnone.
  - rewrite (toggle_present m s db1 fs rv svc1 Hm Hs Hservice1 Hfs a Hone). reflexivity.
  - rewrite (toggle_present m s db1 fs rv svc1 Hm Hs Hservice1 Hfs a Hone).
    apply records_for_unmarked_same.
  - rewrite H2. apply records_for_unmarked_same.
  - change [toggleAttendance m s; toggleAttendance m s; toggleAttendance m s;
            toggleAttendance m s]
      with ([toggleAttendance m s; toggleAttendance m s] ++
            [toggleAttendance m s; toggleAttendance m s]).
    rewrite run_seq_app, H2. cbv beta iota zeta.
    rewrite (toggle_twice m s (unmarked (marked db0 m s (sv_service_date svc)) m s) _ _
               mrow svc Hm Hs Hmember Hservice).
    + apply records_for_unmarked_same.
    + auto 7 with store.
    + apply records_for_unmarked_same.
Qed.

Lemma toggleAttendance_flips_witness :
  let toggle := toggleAttendance jane sunday in
  let w1 := mkWorld (marked scenario_db jane sunday "2024-01-07") [] [] in
  ((toggle scenario).1 = Return Success ∧
   ∃ id, records_for jane sunday (w_db (toggle scenario).2) =
         [mkAttendanceRow id jane sunday "2024-01-07"]) ∧
  ((toggle w1).1 = Return Success ∧ records_for jane sunday (w_db (toggle w1).2) = []) ∧
  records_for jane sunday (w_db (run_seq [toggle; toggle] scenario).2) = [] ∧
  records_for jane sunday (w_db (run_seq [toggle; toggle; toggle; toggle] scenario).2) = [].
Proof.
  apply (toggleAttendance_flips jane sunday scenario_db
           (marked scenario_db jane sunday "2024-01-07")
           (mkAttendanceRow "5" jane sunday "2024-01-07") [] []
           (mkMemberRow 1 "Jane Doe" None None)
           (mkServiceRow 3 "Sunday Service" None "2024-01-07")
           (mkServiceRow 3 "Sunday Service" None "2024-01-07"));
    try reflexivity; try discriminate.
  constructor.
Defined.

(** * The one-record-per-pair invariant *)

Lemma at_most_one_marked db m s d :
  at_most_one db → records_for m s db = [] → at_most_one (marked db m s d).
Proof.
  intros Hinv Hnone m' s'. rewrite records_for_marked.
  destruct (ar_matches m' s' _) eqn:Hmatch.
  - apply ar_matches_true in Hmatch as [<- <-]. cbn [ar_member_id ar_service_id].
    rewrite Hnone. cbn. lia.
  - rewrite app_nil_r. apply Hinv.
Qed.

Lemma at_most_one_unmarked db m s : at_most_one db → at_most_one (unmarked db m s).
Proof.
  intros Hinv m' s'. specialize (Hinv m' s').
  unfold unmarked, records_for, with_attendance in *; cbn [attendance_records].
  etransitivity; [|exact Hinv].
  generalize (attendance_records db). clear Hinv.
  induction l as [|a l IH]; [reflexivity|].
  rewrite (filter_cons _ a l), (filter_cons (λ a, ar_matches m' s' a = true) a l).
  destruct (decide (ar_matches m s a = false)) as [Hf|Hf].
  - rewrite filter_cons.
    destruct (decide (ar_matches m' s' a = true)); cbn [length]; lia.
  - destruct (decide (ar_matches m' s' a = true)); cbn [length]; lia.
Qed.

Lemma at_most_one_insert_branch db m s d fs rv :
  at_most_one db → records_for m s db = [] →
  at_most_one (w_db (insert_branch m s d db fs rv).2).
Proof.
  intros Hinv Hnone. unfold insert_branch.
  destruct (fault_of fs); [exact Hinv|].
  destruct (bool_decide _ && bool_decide _); [|exact Hinv].
  apply at_most_one_marked; assumption.
Qed.

Lemma at_most_one_delete_branch db m s fs rv :
  at_most_one db → at_most_one (w_db (delete_branch m s db fs rv).2).
Proof.
  intros Hinv. unfold delete_branch.
  destruct (fault_of fs); [exact Hinv|]. apply at_most_one_unmarked, Hinv.
Qed.

(** When the existence check is answered, both actions keep the invariant,
    whatever the other store calls do. *)
Lemma toggleAttendance_keeps_at_most_one m s db fs rv :
  at_most_one db → fault_of (tail fs) = None →
  at_most_one (w_db (toggleAttendance m s (mkWorld db fs rv)).2).
Proof.
  intros Hinv Hcheck.
  destruct (decide (m = "")) as [Hm|Hm];
    [rewrite toggleAttendance_invalid by auto; exact Hinv|].
  destruct (decide (s = "")) as [Hs|Hs];
    [rewrite toggleAttendance_invalid by auto; exact Hinv|].
  rewrite toggleAttendance_run by assumption.
  destruct (fault_of fs); [exact Hinv|].
  destruct (services db !! s); [|exact Hinv].
  rewrite Hcheck. pose proof (Hinv m s) as Hms.
  destruct (records_for m s db) as [|a [|b l]] eqn:Hrec.
  - apply at_most_one_insert_branch; assumption.
  - apply at_most_one_delete_branch, Hinv.
  - cbn in Hms. lia.
Qed.

Lemma markAttendance_keeps_at_most_one fd db fs rv :
  at_most_one db → fault_of (tail fs) = None →
  at_most_one (w_db (markAttendance fd (mkWorld db fs rv)).2).
Proof.
  intros Hinv Hcheck.
  destruct (formData_get fd "memberId") as [m|] eqn:Hfm;
    [|rewrite markAttendance_invalid by (left; left; exact Hfm); exact Hinv].
  destruct (formData_get fd "serviceId") as [s|] eqn:Hfsv;
    [|rewrite markAttendance_invalid by (right; left; exact Hfsv); exact Hinv].
  destruct (decide (m = "")) as [->|Hm];
    [rewrite markAttendance_invalid by (left; right; exact Hfm); exact Hinv|].
  destruct (decide (s = "")) as [->|Hs];
    [rewrite markAttendance_invalid by (right; right; exact Hfsv); exact Hinv|].
  rewrite (markAttendance_run fd m s) by assumption.
  destruct (fault_of fs); [exact Hinv|].
  destruct (services db !! s); [|exact Hinv].
  rewrite Hcheck. pose proof (Hinv m s) as Hms.
  destruct (records_for m s db) as [|a [|b l]] eqn:Hrec.
  - apply at_most_one_insert_branch; assumption.
  - exact Hinv.
  - cbn in Hms. lia.
Qed.

(** C3: the invariant does not survive a failed existence check. Jane is
    marked for the Sunday service; the service lookup answers, the existence
    check fails, the insert goes through: both actions report success and
    leave two AttendanceRecords for the pair. *)
Theorem failed_check_breaks_at_most_one :
  let db := marked scenario_db jane sunday "2024-01-07" in
  let w := mkWorld db [None; Some "fetch failed"] [] in
  at_most_one db ∧
  (markAttendance jane_sunday w).1 = Return Success ∧
  length (records_for jane sunday (w_db (markAttendance jane_sunday w).2)) = 2 ∧
  ¬ at_most_one (w_db (markAttendance jane_sunday w).2) ∧
  (toggleAttendance jane sunday w).1 = Return Success ∧
  length (records_for jane sunday (w_db (toggleAttendance jane sunday w).2)) = 2 ∧
  ¬ at_most_one (w_db (toggleAttendance jane sunday w).2).
Proof.
  cbv zeta. split; [|repeat split; try reflexivity].
  - intros m s. unfold records_for. etransitivity; [apply length_filter|]. reflexivity.
  - intros H. specialize (H jane sunday). vm_compute in H. lia.
  - intros H. specialize (H jane sunday). vm_compute in H. lia.
Qed.

(** * The existence check *)

(** C10: when the existence check of the pair fails, with whatever message,
    neither action reports it: with valid identifiers and an existing
    service both continue with the insert, exactly as they do on a store
    that holds no record of the pair and answers the check. *)
Theorem failed_check_is_discarded (fd : FormData) (m s msg : string) (db : DB)
  (fs : list (option string)) (rv : list string) (svc : ServiceRow) :
  formData_get fd "memberId" = Some m →
  formData_get fd "serviceId" = Some s →
  m ≠ "" → s ≠ "" →
  services db !! s = Some svc →
  let w := mkWorld db (None :: Some msg :: fs) rv in
  let w_absent := mkWorld (unmarked db m s) (None :: None :: fs) rv in
  markAttendance fd w = insert_branch m s (sv_service_date svc) db fs rv ∧
  toggleAttendance m s w = insert_branch m s (sv_service_date svc) db fs rv ∧
  (markAttendance fd w).1 = (markAttendance fd w_absent).1 ∧
  (toggleAttendance m s w).1 = (toggleAttendance m s w_absent).1.
Proof.
  intros Hfm Hfsv Hm Hs Hservice w w_absent. subst w w_absent.
  rewrite !(markAttendance_run fd m s), !toggleAttendance_run by assumption.
  cbn [fault_of head tail from_option id]. cbn [unmarked with_attendance services].
  rewrite Hservice.
  change (records_for m s (mkDB (members db) (services db)
            (filter (λ r, ar_matches m s r = false) (attendance_records db)) (db_seq db)))
    with (records_for m s (unmarked db m s)).
  rewrite records_for_unmarked_same.
  repeat split; unfold insert_branch; cbn [members services];
    destruct (fault_of fs); try reflexivity;
    destruct (bool_decide _ && bool_decide _); reflexivity.
Qed.

Lemma failed_check_is_discarded_witness :
  let db := marked scenario_db jane sunday "2024-01-07" in
  let w := mkWorld db [None; Some "fetch failed"] [] in
  let w_absent := mkWorld (unmarked db jane sunday) [None; None] [] in
  markAttendance jane_sunday w = insert_branch jane sunday "2024-01-07" db [] [] ∧
  toggleAttendance jane sunday w = insert_branch jane sunday "2024-01-07" db [] [] ∧
  (markAttendance jane_sunday w).1 = (markAttendance jane_sunday w_absent).1 ∧
  (toggleAttendance jane sunday w).1 = (toggleAttendance jane sunday w_absent).1.
Proof.
  apply (failed_check_is_discarded jane_sunday jane sunday "fetch failed"
           (marked scenario_db jane sunday "2024-01-07") [] []
           (mkServiceRow 3 "Sunday Service" None "2024-01-07"));
    try reflexivity; discriminate.
Defined.

(** * Ordered queries *)

Lemma string_leb_trans a b c :
  String.leb a b = true → String.leb b c = true → String.leb a c = true.
Proof.
  unfold String.leb. revert b c.
  induction a as [|x a IH]; intros [|y b] [|z c]; cbn; try done.
  unfold Ascii.compare.
  destruct (N.compare_spec (Ascii.N_of_ascii x) (Ascii.N_of_ascii y)) as [Hxy|Hxy|Hxy];
    destruct (N.compare_spec (Ascii.N_of_ascii y) (Ascii.N_of_ascii z)) as [Hyz|Hyz|Hyz];
    destruct (N.compare_spec (Ascii.N_of_ascii x) (Ascii.N_of_ascii z)) as [Hxz|Hxz|Hxz];
    try done; try lia.
  apply IH.
Qed.

Lemma text_le_total a b : text_le a b = true ∨ text_le b a = true.
Proof. apply String.leb_total. Qed.

Lemma timestamp_le_total a b : timestamp_le a b = true ∨ timestamp_le b a = true.
Proof. unfold timestamp_le. rewrite !N.leb_le. lia. Qed.

Lemma timestamp_le_trans a b c :
  timestamp_le a b = true → timestamp_le b c = true → timestamp_le a c = true.
Proof. unfold timestamp_le. rewrite !N.leb_le. lia. Qed.

Lemma StronglySorted_weaken {A} (R R' : relation A) l :
  (∀ x y, R x y → R' x y) → StronglySorted R l → StronglySorted R' l.
Proof.
  intros HR. induction 1 as [|x l Hl IH Hx]; constructor; [exact IH|].
  eapply Forall_impl; [exact Hx|]. intros y. apply HR.
Qed.

Section order_laws.
Context {A K : Type} (le : K → K → bool) (key : A → K).
Hypothesis le_total : ∀ x y, le x y = true ∨ le y x = true.
Hypothesis le_trans : ∀ x y z, le x y = true → le y z = true → le x z = true.

Lemma order_rel_total asc : Total (order_rel le key asc).
Proof.
  intros a b. unfold order_rel.
  destruct asc, (le_total (key a) (key b)) as [H|H]; rewrite H; cbn; auto.
Qed.

Lemma order_rel_trans asc : Transitive (order_rel le key asc).
Proof.
  intros a b c. unfold order_rel. rewrite !Is_true_true.
  destruct asc; eauto.
Qed.

Lemma order_perm asc rows : order le key asc rows ≡ₚ rows.
Proof. apply merge_sort_Permutation. Qed.

Lemma order_sorted asc rows :
  StronglySorted (order_rel le key asc) (order le key asc rows).
Proof.
  apply Sorted_StronglySorted; [apply order_rel_trans|].
  apply (@Sorted_merge_sort _ _ _ (order_rel_total asc)).
Qed.

Lemma order_ascending rows : ascending le key (order le key true rows).
Proof.
  eapply StronglySorted_weaken; [|apply order_sorted].
  intros x y. unfold order_rel. apply Is_true_true_1.
Qed.

Lemma order_descending rows : descending le key (order le key false rows).
Proof.
  eapply StronglySorted_weaken; [|apply order_sorted].
  intros x y. unfold order_rel. apply Is_true_true_1.
Qed.
End order_laws.

Lemma joined_enriched db a :
  is_Some (members db !! ar_member_id a) ∧ is_Some (services db !! ar_service_id a) →
  enriched db a (RecordsPage.joined db a).
Proof.
  intros [[mem Hmem] [svc Hsvc]]. exists svc, mem. split; [exact Hsvc|]. split; [exact Hmem|].
  unfold RecordsPage.joined, service_rows, member_rows, by_id. rewrite Hsvc, Hmem. reflexivity.
Qed.

(** * C7 *)

(** C7: on a store whose attendance records reference existing members and
    services, an answered getAttendanceRecords returns every AttendanceRecord
    once, enriched with the name of its Service and the full name of its
    Member, in descending order of service date. *)
Theorem getAttendanceRecords_enriched_descending (db : DB) (fs : list (option string))
  (rv : list string) :
  references_ok db →
  fault_of fs = None →
  ∃ rows recs,
    RecordsPage.getAttendanceRecords (mkWorld db fs rv) =
      (Return recs, mkWorld db (tail fs) rv) ∧
    rows ≡ₚ attendance_records db ∧
    Forall2 (enriched db) rows recs ∧
    descending text_le RecordsPage.service_date recs.
Proof.
  intros Hrefs Hfault. unfold RecordsPage.getAttendanceRecords.
  store_call. rewrite Hfault. cbn [error ok data from_option id mret M_ret].
  set (recs := order text_le RecordsPage.service_date false
                 (RecordsPage.joined db <$> attendance_records db)).
  destruct (@Permutation_map_inv _ _ (RecordsPage.joined db) recs (attendance_records db))
    as (rows & Hrecs & Hperm).
  { apply order_perm. }
  exists rows, recs. split; [reflexivity|]. split; [symmetry; exact Hperm|]. split.
  - rewrite Hrecs. apply Forall2_fmap_r, Forall_Forall2_diag.
    unfold references_ok in Hrefs. rewrite Hperm in Hrefs.
    eapply Forall_impl; [exact Hrefs|]. intros a Ha. apply joined_enriched, Ha.
  - apply order_descending; [apply text_le_total | apply string_leb_trans].
Qed.

Lemma getAttendanceRecords_enriched_descending_witness :
  ∃ rows recs,
    RecordsPage.getAttendanceRecords (mkWorld two_sundays_db [] []) =
      (Return recs, mkWorld two_sundays_db [] []) ∧
    rows ≡ₚ attendance_records two_sundays_db ∧
    Forall2 (enriched two_sundays_db) rows recs ∧
    descending text_le RecordsPage.service_date recs.
Proof.
  apply (getAttendanceRecords_enriched_descending two_sundays_db [] []).
  - repeat constructor; eexists; reflexivity.
  - reflexivity.
Defined.

(** * C5 *)

Lemma all_members_order {Member K} (le : K → K → bool) (key : Member → K) asc
  (id full_name : Member → string) (row : string * MemberRow → Member) db :
  (∀ kv, id (row kv) = kv.1 ∧ full_name (row kv) = m_full_name kv.2) →
  all_members id full_name db (order le key asc (row <$> map_to_list (members db))).
Proof.
  intros Hrow. unfold all_members. rewrite order_perm, <- list_fmap_compose.
  apply eq_subrelation; [apply _|]. apply list_fmap_ext. intros i kv _. cbn.
  destruct (Hrow kv) as [-> ->]. reflexivity.
Qed.

Lemma fmap_order_rows {A B C K} (le : K → K → bool) (key : B → K) asc
  (row : string * A → B) (g : B → C) (h : string * A → C) (tbl : gmap string A) :
  (∀ kv, g (row kv) = h kv) →
  g <$> order le key asc (row <$> map_to_list tbl) ≡ₚ h <$> map_to_list tbl.
Proof.
  intros Hrow. rewrite order_perm, <- list_fmap_compose.
  apply eq_subrelation; [apply _|]. apply list_fmap_ext. intros i kv _. apply Hrow.
Qed.

Lemma all_member_rows_order db :
  all_member_rows db
    (order timestamp_le AdminPage.created_at false
       ((λ kv, AdminPage.mkMember kv.1 (m_created_at kv.2) (m_full_name kv.2)
                 (m_phone_number kv.2) (m_email kv.2))
          <$> map_to_list (members db))).
Proof.
  unfold all_member_rows. rewrite <- (list_fmap_id (map_to_list (members db))) at 2.
  apply fmap_order_rows. intros [k [created name phone email]]. reflexivity.
Qed.

(** C5, as the code has it: when the query is answered, getMembers of the
    attendance page returns all members, each with its id and full name,
    ordered by full name ascending, and getMembers of the admin page returns
    all members, each with every column of its row, ordered by creation
    time descending. *)
Theorem getMembers_orderings (db : DB) (fs : list (option string)) (rv : list string) :
  fault_of fs = None →
  let w := mkWorld db fs rv in
  let w' := mkWorld db (tail fs) rv in
  (∃ l, AttendancePage.getMembers w = (Return l, w') ∧
        all_members AttendancePage.id AttendancePage.full_name db l ∧
        ascending text_le AttendancePage.full_name l) ∧
  (∃ l, AdminPage.getMembers w = (Return l, w') ∧
        all_member_rows db l ∧
        descending timestamp_le AdminPage.created_at l).
Proof.
  intros Hfault w w'. subst w w'. split.
  - unfold AttendancePage.getMembers. store_call. rewrite Hfault.
    cbn [error ok data from_option id mret M_ret].
    eexists. split; [reflexivity|]. split.
    + apply all_members_order. intros kv. split; reflexivity.
    + apply order_ascending; [apply text_le_total | apply string_leb_trans].
  - unfold AdminPage.getMembers. store_call. rewrite Hfault.
    cbn [error ok data from_option id mret M_ret].
    eexists. split; [reflexivity|]. split.
    + apply all_member_rows_order.
    + apply order_descending; [apply timestamp_le_total | apply timestamp_le_trans].
Qed.

Lemma getMembers_orderings_witness :
  (∃ l, AttendancePage.getMembers scenario = (Return l, scenario) ∧
        all_members AttendancePage.id AttendancePage.full_name scenario_db l ∧
        ascending text_le AttendancePage.full_name l) ∧
  (∃ l, AdminPage.getMembers scenario = (Return l, scenario) ∧
        all_member_rows scenario_db l ∧
        descending timestamp_le AdminPage.created_at l).
Proof. apply (getMembers_orderings scenario_db [] []). reflexivity. Defined.

(** C5 as stated fails on the admin page: its getMembers lists John Adams,
    created last, before Jane Doe. *)
Lemma admin_getMembers_not_by_name :
  ¬ lists_members_by_name AdminPage.getMembers AdminPage.id AdminPage.full_name.
Proof.
  intros H. destruct (H scenario_db [] [] eq_refl) as (l & Hl & _ & Hsorted).
  vm_compute in Hl. injection Hl as <-.
  inversion Hsorted as [|x l' _ Hx]; subst.
  inversion Hx as [|y l'' Hy _]; subst.
  vm_compute in Hy. discriminate.
Qed.

(** * Results and exceptions *)

Lemma insert_branch_returns m s d db fs rv :
  ∃ r, (insert_branch m s d db fs rv).1 = Return r.
Proof.
  unfold insert_branch. destruct (fault_of fs); [eauto|].
  destruct (bool_decide _ && bool_decide _); eauto.
Qed.

Lemma delete_branch_returns m s db fs rv :
  ∃ r, (delete_branch m s db fs rv).1 = Return r.
Proof. unfold delete_branch. destruct (fault_of fs); eauto. Qed.

Lemma toggleAttendance_returns m s : returns_result (toggleAttendance m s).
Proof.
  intros [db fs rv].
  destruct (decide (m = "")) as [Hm|Hm]; [rewrite toggleAttendance_invalid by auto; eauto|].
  destruct (decide (s = "")) as [Hs|Hs]; [rewrite toggleAttendance_invalid by auto; eauto|].
  rewrite toggleAttendance_run by assumption.
  destruct (fault_of fs); [eauto|].
  destruct (services db !! s); [|eauto].
  destruct (fault_of (tail fs)); [apply insert_branch_returns|].
  destruct (records_for m s db) as [|a [|b l]];
    auto using insert_branch_returns, delete_branch_returns.
Qed.

Lemma markAttendance_returns fd : returns_result (markAttendance fd).
Proof.
  intros [db fs rv].
  destruct (formData_get fd "memberId") as [m|] eqn:Hfm;
    [|rewrite markAttendance_invalid by (left; left; exact Hfm); eauto].
  destruct (formData_get fd "serviceId") as [s|] eqn:Hfsv;
    [|rewrite markAttendance_invalid by (right; left; exact Hfsv); eauto].
  destruct (decide (m = "")) as [->|Hm];
    [rewrite markAttendance_invalid by (left; right; exact Hfm); eauto|].
  destruct (decide (s = "")) as [->|Hs];
    [rewrite markAttendance_invalid by (right; right; exact Hfsv); eauto|].
  rewrite (markAttendance_run fd m s) by assumption.
  destruct (fault_of fs); [eauto|].
  destruct (services db !! s); [|eauto].
  destruct (fault_of (tail fs)); [apply insert_branch_returns|].
  destruct (records_for m s db) as [|a [|b l]]; eauto using insert_branch_returns.
Qed.

Lemma insert_member_failed full_name phone email db fs rv msg :
  fault_of fs = Some msg →
  insert_member full_name phone email (mkWorld db fs rv) =
  (Return (failed msg), mkWorld db (tail fs) rv).
Proof. destruct fs as [|[e|] fs']; intros [= <-]; reflexivity. Qed.

Lemma insert_service_failed name description date db fs rv msg :
  fault_of fs = Some msg →
  insert_service name description date (mkWorld db fs rv) =
  (Return (failed msg), mkWorld db (tail fs) rv).
Proof. destruct fs as [|[e|] fs']; intros [= <-]; reflexivity. Qed.

(** C9 as stated fails on the read queries: both raise when the store call
    fails. *)
Lemma read_queries_throw :
  ¬ never_throws (AttendancePage.getServiceAttendance sunday) ∧
  ¬ never_throws RecordsPage.getAttendanceRecords.
Proof.
  split; intros H.
  - apply (H (mkWorld scenario_db [Some "fetch failed"] [])
             "Failed to fetch service attendance: fetch failed").
    reflexivity.
  - apply (H (mkWorld scenario_db [Some "fetch failed"] [])
             "Failed to fetch attendance records: fetch failed").
    reflexivity.
Qed.

(** * Grouping on the records page *)





(** * C6: the count of one service against the group of its name *)


(** * What the actions change *)

Lemma insert_branch_effect m s svc db fs rv :
  m ≠ "" → s ≠ "" → services db !! s = Some svc →
  (∃ msg fs',
     insert_branch m s (sv_service_date svc) db fs rv =
     (Return (Error msg), mkWorld db fs' rv)) ∨
  (is_Some (members db !! m) ∧
   ∃ fs', insert_branch m s (sv_service_date svc) db fs rv =
          (Return Success,
           mkWorld (marked db m s (sv_service_date svc)) fs' (rv ++ ["/attendance"]))).
Proof.
  intros Hm Hs Hsvc. unfold insert_branch.
  destruct (fault_of fs); [left; eauto|].
  destruct (bool_decide (is_Some (members db !! m))) eqn:Hmem; cbn [andb]; [|left; eauto].
  destruct (bool_decide (is_Some (services db !! s))); [|left; eauto].
  apply bool_decide_eq_true in Hmem. right. eauto.
Qed.

Lemma markAttendance_effect fd db fs rv :
  (∃ msg fs', markAttendance fd (mkWorld db fs rv) = (Return (Error msg), mkWorld db fs' rv)) ∨
  (∃ m s svc fs',
     formData_get fd "memberId" = Some m ∧ formData_get fd "serviceId" = Some s ∧
     m ≠ "" ∧ s ≠ "" ∧
     services db !! s = Some svc ∧ is_Some (members db !! m) ∧
     markAttendance fd (mkWorld db fs rv) =
     (Return Success,
      mkWorld (marked db m s (sv_service_date svc)) fs' (rv ++ ["/attendance"]))).
Proof.
  destruct (formData_get fd "memberId") as [m|] eqn:Hfm;
    [|left; rewrite markAttendance_invalid by (left; left; exact Hfm); eauto].
  destruct (formData_get fd "serviceId") as [s|] eqn:Hfsv;
    [|left; rewrite markAttendance_invalid by (right; left; exact Hfsv); eauto].
  destruct (decide (m = "")) as [->|Hm];
    [left; rewrite markAttendance_invalid by (left; right; exact Hfm); eauto|].
  destruct (decide (s = "")) as [->|Hs];
    [left; rewrite markAttendance_invalid by (right; right; exact Hfsv); eauto|].
  rewrite (markAttendance_run fd m s) by assumption.
  destruct (fault_of fs); [left; eauto|].
  destruct (services db !! s) as [svc|] eqn:Hsvc; [|left; eauto].
  assert ((∃ msg fs', insert_branch m s (sv_service_date svc) db (tail (tail fs)) rv =
                      (Return (Error msg), mkWorld db fs' rv)) ∨
          (∃ m0 s0 svc0 fs', Some m = Some m0 ∧ Some s = Some s0 ∧ m0 ≠ "" ∧ s0 ≠ "" ∧
             services db !! s0 = Some svc0 ∧ is_Some (members db !! m0) ∧
             insert_branch m s (sv_service_date svc) db (tail (tail fs)) rv =
             (Return Success,
              mkWorld (marked db m0 s0 (sv_service_date svc0)) fs' (rv ++ ["/attendance"]))))
    as Hins.
  { destruct (insert_branch_effect m s svc db (tail (tail fs)) rv Hm Hs Hsvc)
      as [Herr | (Hmem & fs' & Hok)]; [left; exact Herr|].
    right. exists m, s, svc, fs'. repeat split; assumption. }
  destruct (fault_of (tail fs)); [exact Hins|].
  destruct (records_for m s db) as [|a [|b l]]; [exact Hins | left; eauto | exact Hins].
Qed.

Lemma toggleAttendance_effect m s db fs rv :
  action_effect m s db rv (toggleAttendance m s (mkWorld db fs rv)).
Proof.
  destruct (decide (m = "")) as [Hm|Hm];
    [rewrite toggleAttendance_invalid by auto; constructor|].
  destruct (decide (s = "")) as [Hs|Hs];
    [rewrite toggleAttendance_invalid by auto; constructor|].
  rewrite toggleAttendance_run by assumption.
  destruct (fault_of fs); [constructor|].
  destruct (services db !! s) as [svc|] eqn:Hsvc; [|constructor].
  assert (action_effect m s db rv
            (insert_branch m s (sv_service_date svc) db (tail (tail fs)) rv)) as Hins.
  { destruct (insert_branch_effect m s svc db (tail (tail fs)) rv Hm Hs Hsvc)
      as [(msg & fs' & ->) | (Hmem & fs' & ->)]; [constructor|].
    constructor; assumption. }
  destruct (fault_of (tail fs)); [exact Hins|].
  destruct (records_for m s db) as [|a [|b l]]; [exact Hins | | exact Hins].
  unfold delete_branch. destruct (fault_of (tail (tail fs))); constructor; assumption.
Qed.

Lemma markAttendance_action_effect fd m s db fs rv :
  formData_get fd "memberId" = Some m →
  formData_get fd "serviceId" = Some s →
  action_effect m s db rv (markAttendance fd (mkWorld db fs rv)).
Proof.
  intros Hfm Hfsv.
  destruct (markAttendance_effect fd db fs rv)
    as [(msg & fs' & ->) | (m0 & s0 & svc & fs' & Hm0 & Hs0 & Hm & Hs & Hsvc & Hmem & ->)];
    [constructor|].
  rewrite Hfm in Hm0. rewrite Hfsv in Hs0. injection Hm0 as <-. injection Hs0 as <-.
  constructor; assumption.
Qed.

Lemma records_for_unmarked_other db m s m' s' :
  (m', s') ≠ (m, s) → records_for m' s' (unmarked db m s) = records_for m' s' db.
Proof.
  intros Hne. unfold unmarked, records_for, with_attendance; cbn [attendance_records].
  induction (attendance_records db) as [|a l IH]; [reflexivity|].
  rewrite (filter_cons _ a l), (filter_cons (λ a, ar_matches m' s' a = true) a l).
  destruct (decide (ar_matches m s a = false)) as [Hf|Hf].
  - rewrite filter_cons. destruct (decide (ar_matches m' s' a = true)); [f_equal|]; exact IH.
  - rewrite decide_False; [exact IH|].
    intros Ht. apply ar_matches_true in Ht as [Hm' Hs'].
    apply not_false_is_true, ar_matches_true in Hf as [Hm Hs].
    apply Hne. congruence.
Qed.

Lemma records_for_marked_other db m s d m' s' :
  (m', s') ≠ (m, s) → records_for m' s' (marked db m s d) = records_for m' s' db.
Proof.
  intros Hne. rewrite records_for_marked.
  destruct (ar_matches m' s' _) eqn:Hmatch; [|apply app_nil_r].
  apply ar_matches_true in Hmatch as [Hm Hs]. cbn in Hm, Hs. destruct Hne. congruence.
Qed.

(** X1: whatever the form, the world and the failures of the store calls,
    both actions return a value; an error leaves the database and the
    revalidation log as they were, a success revalidates '/attendance' once. *)
Theorem action_result_and_log (fd : FormData) (m s : string) (w : World) :
  match (markAttendance fd w).1 with
  | Return (Error _) =>
    db_after (markAttendance fd) w = w_db w ∧
    revalidated_after (markAttendance fd) w = w_revalidated w
  | Return Success =>
    revalidated_after (markAttendance fd) w = w_revalidated w ++ ["/attendance"]
  | _ => False
  end ∧
  match (toggleAttendance m s w).1 with
  | Return (Error _) =>
    db_after (toggleAttendance m s) w = w_db w ∧
    revalidated_after (toggleAttendance m s) w = w_revalidated w
  | Return Success =>
    revalidated_after (toggleAttendance m s) w = w_revalidated w ++ ["/attendance"]
  | _ => False
  end.
Proof.
  destruct w as [db fs rv]. unfold db_after, revalidated_after. split.
  - destruct (markAttendance_effect fd db fs rv)
      as [(msg & fs' & ->) | (m0 & s0 & svc & fs' & _ & _ & _ & _ & _ & _ & ->)];
      cbn; auto.
  - destruct (toggleAttendance_effect m s db fs rv); cbn; auto.
Qed.

(** X2: the actions write to attendance_records only, and only to the pair
    they were called for: the members and services tables and the records
    of every other pair are the same after the run, whatever the store calls
    do. *)
Theorem actions_touch_one_pair (fd : FormData) (m s m' s' : string) (w : World) :
  formData_get fd "memberId" = Some m →
  formData_get fd "serviceId" = Some s →
  (m', s') ≠ (m, s) →
  (members (db_after (markAttendance fd) w) = members (w_db w) ∧
   services (db_after (markAttendance fd) w) = services (w_db w) ∧
   records_for m' s' (db_after (markAttendance fd) w) = records_for m' s' (w_db w)) ∧
  (members (db_after (toggleAttendance m s) w) = members (w_db w) ∧
   services (db_after (toggleAttendance m s) w) = services (w_db w) ∧
   records_for m' s' (db_after (toggleAttendance m s) w) = records_for m' s' (w_db w)).
Proof.
  intros Hfm Hfsv Hne. destruct w as [db fs rv]. unfold db_after. split.
  - destruct (markAttendance_action_effect fd m s db fs rv Hfm Hfsv); cbn [snd w_db];
      repeat split; auto using records_for_marked_other, records_for_unmarked_other.
  - destruct (toggleAttendance_effect m s db fs rv); cbn [snd w_db];
      repeat split; auto using records_for_marked_other, records_for_unmarked_other.
Qed.

Lemma actions_touch_one_pair_witness :
  let w := mkWorld weekly_db [] [] in
  (members (db_after (markAttendance jane_sunday) w) = members weekly_db ∧
   services (db_after (markAttendance jane_sunday) w) = services weekly_db ∧
   records_for john sunday (db_after (markAttendance jane_sunday) w) =
     records_for john sunday weekly_db) ∧
  (members (db_after (toggleAttendance jane sunday) w) = members weekly_db ∧
   services (db_after (toggleAttendance jane sunday) w) = services weekly_db ∧
   records_for john sunday (db_after (toggleAttendance jane sunday) w) =
     records_for john sunday weekly_db).
Proof.
  apply (actions_touch_one_pair jane_sunday jane sunday john sunday (mkWorld weekly_db [] []));
    [reflexivity | reflexivity | discriminate].
Defined.

(** X3: a successful markAttendance appends exactly one record, for the
    member and service of the form, both present in the store, carrying the
    service's current date; a markAttendance that fails leaves
    attendance_records as it was. It never deletes. *)
Theorem markAttendance_appends (fd : FormData) (w : World) :
  match (markAttendance fd w).1 with
  | Return Success =>
    ∃ m s svc,
      formData_get fd "memberId" = Some m ∧ formData_get fd "serviceId" = Some s ∧
      is_Some (members (w_db w) !! m) ∧ services (w_db w) !! s = Some svc ∧
      attendance_records (db_after (markAttendance fd) w) =
      attendance_records (w_db w) ++
        [mkAttendanceRow (gen_random_uuid (w_db w)) m s (sv_service_date svc)]
  | _ =>
    attendance_records (db_after (markAttendance fd) w) = attendance_records (w_db w)
  end.
Proof.
  destruct w as [db fs rv]. unfold db_after.
  destruct (markAttendance_effect fd db fs rv)
    as [(msg & fs' & ->) | (m & s & svc & fs' & Hfm & Hfsv & _ & _ & Hsvc & Hmem & ->)];
    cbn [fst snd w_db]; [reflexivity|].
  exists m, s, svc. repeat split; assumption.
Qed.

(** X4: a successful toggleAttendance either appends one record of the pair
    with the service's current date, or removes every record of the pair
    and nothing else. *)
Theorem toggleAttendance_writes (m s : string) (w : World) :
  match (toggleAttendance m s w).1 with
  | Return Success =>
    (∃ svc,
       is_Some (members (w_db w) !! m) ∧ services (w_db w) !! s = Some svc ∧
       attendance_records (db_after (toggleAttendance m s) w) =
       attendance_records (w_db w) ++
         [mkAttendanceRow (gen_random_uuid (w_db w)) m s (sv_service_date svc)]) ∨
    attendance_records (db_after (toggleAttendance m s) w) =
    filter (λ a, ¬ (ar_member_id a = m ∧ ar_service_id a = s)) (attendance_records (w_db w))
  | _ =>
    attendance_records (db_after (toggleAttendance m s) w) = attendance_records (w_db w)
  end.
Proof.
  destruct w as [db fs rv]. unfold db_after.
  destruct (toggleAttendance_effect m s db fs rv) as [msg fs'|svc fs' _ _ Hsvc Hmem|fs' _ _];
    cbn [fst snd w_db].
  - reflexivity.
  - left. exists svc. repeat split; assumption.
  - right. cbn [unmarked with_attendance attendance_records].
    apply list_filter_iff. intros a. rewrite <- ar_matches_true.
    destruct (ar_matches m s a); split; congruence.
Qed.

Lemma references_ok_marked db m s d :
  references_ok db → is_Some (members db !! m) → is_Some (services db !! s) →
  references_ok (marked db m s d).
Proof.
  intros Hrefs Hmem Hsvc. unfold references_ok, marked, with_attendance in *.
  cbn [attendance_records members services].
  apply Forall_app. split; [exact Hrefs|]. constructor; [|constructor]. split; assumption.
Qed.

Lemma references_ok_unmarked db m s : references_ok db → references_ok (unmarked db m s).
Proof.
  intros Hrefs. unfold references_ok, unmarked, with_attendance in *.
  cbn [attendance_records members services].
  apply Forall_forall. intros a Ha. apply list_elem_of_filter in Ha as [_ Ha].
  revert a Ha. apply Forall_forall, Hrefs.
Qed.

(** X5: neither action ever leaves a record that references a missing
    member or service: referential integrity of attendance_records is kept
    by every call, whatever the store calls do. *)
Theorem actions_keep_references (r : Request) (w : World) :
  references_ok (w_db w) → references_ok (db_after (perform r) w).
Proof.
  intros Hrefs. destruct w as [db fs rv]. unfold db_after.
  destruct r as [fd | m s]; cbn [perform].
  - destruct (markAttendance_effect fd db fs rv)
      as [(msg & fs' & ->) | (m & s & svc & fs' & _ & _ & _ & _ & Hsvc & Hmem & ->)];
      [exact Hrefs|].
    apply references_ok_marked; eauto.
  - destruct (toggleAttendance_effect m s db fs rv) as [msg fs'|svc fs' _ _ Hsvc Hmem|fs' _ _].
    + exact Hrefs.
    + apply references_ok_marked; eauto.
    + apply references_ok_unmarked, Hrefs.
Qed.

Lemma actions_keep_references_witness :
  references_ok (db_after (perform (Toggle john midweek)) (mkWorld weekly_db [] [])).
Proof.
  apply (actions_keep_references (Toggle john midweek) (mkWorld weekly_db [] [])).
  repeat constructor; eexists; reflexivity.
Defined.

Lemma insert_branch_faults m s d db fs rv :
  w_faults (insert_branch m s d db fs rv).2 = tail fs.
Proof.
  unfold insert_branch. destruct (fault_of fs); [reflexivity|].
  destruct (bool_decide _ && bool_decide _); reflexivity.
Qed.

Lemma delete_branch_faults m s db fs rv :
  w_faults (delete_branch m s db fs rv).2 = tail fs.
Proof. unfold delete_branch. destruct (fault_of fs); reflexivity. Qed.

Lemma healthy_after_toggle m s db fs rv :
  healthy fs → healthy (w_faults (toggleAttendance m s (mkWorld db fs rv)).2).
Proof.
  intros Hfs.
  destruct (decide (m = "")) as [Hm|Hm];
    [rewrite toggleAttendance_invalid by auto; exact Hfs|].
  destruct (decide (s = "")) as [Hs|Hs];
    [rewrite toggleAttendance_invalid by auto; exact Hfs|].
  rewrite toggleAttendance_run by assumption.
  destruct (fault_of fs); [solve [cbn [snd w_faults]; auto with store]|].
  destruct (services db !! s); [|solve [cbn [snd w_faults]; auto with store]].
  destruct (fault_of (tail fs)); [lazy beta iota; rewrite insert_branch_faults; solve [auto with store]|].
  destruct (records_for m s db) as [|a [|b l]]; lazy beta iota;
    rewrite ?insert_branch_faults, ?delete_branch_faults; auto with store.
Qed.

Lemma healthy_after_mark fd db fs rv :
  healthy fs → healthy (w_faults (markAttendance fd (mkWorld db fs rv)).2).
Proof.
  intros Hfs.
  destruct (formData_get fd "memberId") as [m|] eqn:Hfm;
    [|rewrite markAttendance_invalid by (left; left; exact Hfm); exact Hfs].
  destruct (formData_get fd "serviceId") as [s|] eqn:Hfsv;
    [|rewrite markAttendance_invalid by (right; left; exact Hfsv); exact Hfs].
  destruct (decide (m = "")) as [->|Hm];
    [rewrite markAttendance_invalid by (left; right; exact Hfm); exact Hfs|].
  destruct (decide (s = "")) as [->|Hs];
    [rewrite markAttendance_invalid by (right; right; exact Hfsv); exact Hfs|].
  rewrite (markAttendance_run fd m s) by assumption.
  destruct (fault_of fs); [solve [cbn [snd w_faults]; auto with store]|].
  destruct (services db !! s); [|solve [cbn [snd w_faults]; auto with store]].
  destruct (fault_of (tail fs)); [lazy beta iota; rewrite insert_branch_faults; solve [auto with store]|].
  destruct (records_for m s db) as [|a [|b l]]; lazy beta iota;
    rewrite ?insert_branch_faults; cbn [snd w_faults]; auto with store.
Qed.

(** X6: on a store that answers every call, any sequence of markAttendance
    and toggleAttendance calls, run one after the other, keeps the invariant
    'at most one AttendanceRecord per (member, service) pair'. *)
Theorem sequence_keeps_at_most_one (reqs : list Request) (w : World) :
  healthy (w_faults w) →
  at_most_one (w_db w) →
  at_most_one (w_db (run_seq (perform <$> reqs) w).2).
Proof.
  revert w. induction reqs as [|r reqs IH]; intros w Hfs Hinv; [exact Hinv|].
  rewrite fmap_cons. cbn [run_seq].
  destruct (perform r w) as [res w'] eqn:Hstep.
  specialize (IH w'). destruct (run_seq (perform <$> reqs) w') as [rs w''].
  cbn [snd] in *. destruct w as [db fs rv]. cbn [w_faults w_db] in *.
  assert (fault_of (tail fs) = None) as Hcheck by auto with store.
  apply IH.
  - replace w' with (perform r (mkWorld db fs rv)).2 by (rewrite Hstep; reflexivity).
    destruct r; cbn [perform]; auto using healthy_after_mark, healthy_after_toggle.
  - replace w' with (perform r (mkWorld db fs rv)).2 by (rewrite Hstep; reflexivity).
    destruct r; cbn [perform];
      auto using markAttendance_keeps_at_most_one, toggleAttendance_keeps_at_most_one.
Qed.

Lemma sequence_keeps_at_most_one_witness :
  at_most_one
    (w_db (run_seq (perform <$> [Mark jane_sunday; Mark jane_sunday; Toggle john sunday;
                                 Toggle jane sunday; Mark jane_sunday])
             scenario).2).
Proof.
  apply (sequence_keeps_at_most_one
           [Mark jane_sunday; Mark jane_sunday; Toggle john sunday;
            Toggle jane sunday; Mark jane_sunday] scenario).
  - constructor.
  - intros m s. vm_compute. lia.
Defined.

(** X7: toggleAttendance differs from markAttendance only where it deletes:
    for the same pair, whenever the pair does not have exactly one record,
    both actions return the same result and leave the same world, whatever
    the store calls do. *)
Theorem toggle_is_mark_unless_one_record (fd : FormData) (m s : string) (w : World) :
  formData_get fd "memberId" = Some m →
  formData_get fd "serviceId" = Some s →
  length (records_for m s (w_db w)) ≠ 1 →
  toggleAttendance m s w = markAttendance fd w.
Proof.
  intros Hfm Hfsv Hlen. destruct w as [db fs rv]. cbn [w_db] in Hlen.
  destruct (decide (m = "")) as [->|Hm].
  { rewrite toggleAttendance_invalid by auto.
    rewrite markAttendance_invalid by (left; right; exact Hfm). reflexivity. }
  destruct (decide (s = "")) as [->|Hs].
  { rewrite toggleAttendance_invalid by auto.
    rewrite markAttendance_invalid by (right; right; exact Hfsv). reflexivity. }
  rewrite toggleAttendance_run, (markAttendance_run fd m s) by assumption.
  destruct (fault_of fs); [reflexivity|].
  destruct (services db !! s); [|reflexivity].
  destruct (fault_of (tail fs)); [reflexivity|].
  destruct (records_for m s db) as [|a [|b l]]; [reflexivity | | reflexivity].
  cbn in Hlen. congruence.
Qed.

Lemma toggle_is_mark_unless_one_record_witness :
  toggleAttendance jane sunday scenario = markAttendance jane_sunday scenario.
Proof.
  apply (toggle_is_mark_unless_one_record jane_sunday jane sunday scenario);
    [reflexivity | reflexivity | discriminate].
Defined.

(** X8: a pair that already has two or more records is not repaired: on a
    store that answers, markAttendance does not report a duplicate and
    toggleAttendance does not delete; both succeed and add one more record
    of the pair. *)
Theorem duplicated_pair_grows (fd : FormData) (m s : string) (db : DB)
  (fs : list (option string)) (rv : list string) (mrow : MemberRow) (svc : ServiceRow) :
  formData_get fd "memberId" = Some m →
  formData_get fd "serviceId" = Some s →
  m ≠ "" → s ≠ "" →
  members db !! m = Some mrow →
  services db !! s = Some svc →
  healthy fs →
  2 ≤ length (records_for m s db) →
  let w := mkWorld db fs rv in
  (markAttendance fd w).1 = Return Success ∧
  (toggleAttendance m s w).1 = Return Success ∧
  length (records_for m s (db_after (markAttendance fd) w)) = S (length (records_for m s db)) ∧
  length (records_for m s (db_after (toggleAttendance m s) w)) =
    S (length (records_for m s db)).
Proof.
  intros Hfm Hfsv Hm Hs Hmem Hsvc Hfs Hlen w. subst w. unfold db_after.
  rewrite toggleAttendance_run, (markAttendance_run fd m s) by assumption.
  rewrite (healthy_fault_of fs), Hsvc, (healthy_fault_of (tail fs)) by auto with store.
  assert (insert_branch m s (sv_service_date svc) db (tail (tail fs)) rv =
          (Return Success,
           mkWorld (marked db m s (sv_service_date svc)) (tail (tail (tail fs)))
             (rv ++ ["/attendance"]))) as Hins
    by (apply (insert_branch_ok m s db mrow svc); auto with store).
  assert (length (records_for m s (marked db m s (sv_service_date svc))) =
          S (length (records_for m s db))) as Hgrow.
  { rewrite records_for_marked, ar_matches_refl, length_app. cbn. lia. }
  destruct (records_for m s db) as [|a [|b l]] eqn:Hrec; [cbn in Hlen; lia | cbn in Hlen; lia |].
  rewrite Hins. cbn [fst snd w_db]. auto.
Qed.

Lemma duplicated_pair_grows_witness :
  let db := marked (marked scenario_db jane sunday "2024-01-07") jane sunday "2024-01-07" in
  let w := mkWorld db [] [] in
  (markAttendance jane_sunday w).1 = Return Success ∧
  (toggleAttendance jane sunday w).1 = Return Success ∧
  length (records_for jane sunday (db_after (markAttendance jane_sunday) w)) =
    S (length (records_for jane sunday db)) ∧
  length (records_for jane sunday (db_after (toggleAttendance jane sunday) w)) =
    S (length (records_for jane sunday db)).
Proof.
  apply (duplicated_pair_grows jane_sunday jane sunday
           (marked (marked scenario_db jane sunday "2024-01-07") jane sunday "2024-01-07")
           [] [] (mkMemberRow 1 "Jane Doe" None None)
           (mkServiceRow 3 "Sunday Service" None "2024-01-07"));
    try reflexivity; try discriminate.
  all: first [by constructor | vm_compute; lia].
Defined.

(** * Reading the attendance of a service *)

Lemma filter_not_nil_elem_of {A} (P : A → Prop) `{∀ x, Decision (P x)} (l : list A) :
  filter P l ≠ [] ↔ ∃ x, x ∈ l ∧ P x.
Proof.
  split.
  - destruct (filter P l) as [|x l'] eqn:Hf; [done|]. intros _.
    assert (x ∈ filter P l) as Hx by (rewrite Hf; left).
    apply list_elem_of_filter in Hx as [HP Hx]. eauto.
  - intros (x & Hx & HP) Hnil. eapply filter_nil_not_elem_of; eauto.
Qed.

Lemma getServiceAttendance_answered s db fs rv :
  fault_of fs = None →
  AttendancePage.getServiceAttendance s (mkWorld db fs rv) =
  (Return ((λ a, AttendancePage.mkAttendanceRecord (ar_id a) (ar_member_id a) (ar_service_date a))
             <$> filter (λ a, ar_service_id a = s) (attendance_records db)),
   mkWorld db (tail fs) rv).
Proof.
  intros Hfault. unfold AttendancePage.getServiceAttendance. store_call. rewrite Hfault.
  reflexivity.
Qed.

Lemma attended_iff_record db s m :
  m ∈ AttendancePage.member_id <$>
      ((λ a, AttendancePage.mkAttendanceRecord (ar_id a) (ar_member_id a) (ar_service_date a))
         <$> filter (λ a, ar_service_id a = s) (attendance_records db)) ↔
  records_for m s db ≠ [].
Proof.
  unfold records_for. rewrite filter_not_nil_elem_of, <- list_fmap_compose, list_elem_of_fmap.
  split.
  - intros (a & -> & Ha). apply list_elem_of_filter in Ha as [Hs Ha].
    exists a. split; [exact Ha|]. apply ar_matches_true. split; [reflexivity | exact Hs].
  - intros (a & Ha & Hmatch). apply ar_matches_true in Hmatch as [Hm Hs].
    exists a. split; [symmetry; exact Hm|]. apply list_elem_of_filter. split; assumption.
Qed.

(** X9: an answered getServiceAttendance(s) returns, in table order, one
    entry per AttendanceRecord of the service and nothing else, without
    changing the store: a member is listed exactly when a record of the pair
    exists, and a service without records gives the empty sequence, not an
    error. *)
Theorem getServiceAttendance_lists_records (s : string) (db : DB)
  (fs : list (option string)) (rv : list string) :
  fault_of fs = None →
  ∃ l,
    AttendancePage.getServiceAttendance s (mkWorld db fs rv) =
      (Return l, mkWorld db (tail fs) rv) ∧
    AttendancePage.member_id <$> l =
      ar_member_id <$> filter (λ a, ar_service_id a = s) (attendance_records db) ∧
    (∀ m, m ∈ AttendancePage.member_id <$> l ↔ records_for m s db ≠ []) ∧
    (l = [] ↔ ∀ m, records_for m s db = []).
Proof.
  intros Hfault. eexists. split; [apply getServiceAttendance_answered, Hfault|].
  split; [rewrite <- list_fmap_compose; reflexivity|].
  split; [intros m; apply attended_iff_record|].
  split.
  - intros Hnil m. destruct (records_for m s db) eqn:Hrec; [reflexivity|].
    assert (records_for m s db ≠ []) as Hne by (rewrite Hrec; discriminate).
    apply attended_iff_record in Hne. rewrite Hnil in Hne. inversion Hne.
  - intros Hnone.
    destruct (filter _ _) as [|a l'] eqn:Hf; [reflexivity|].
    assert (a ∈ filter (λ a, ar_service_id a = s) (attendance_records db)) as Ha
      by (rewrite Hf; left).
    apply list_elem_of_filter in Ha as [Hs Ha].
    assert (records_for (ar_member_id a) s db ≠ []) as Hne.
    { unfold records_for. apply filter_not_nil_elem_of. exists a. split; [exact Ha|].
      apply ar_matches_true. split; [reflexivity | exact Hs]. }
    destruct (Hne (Hnone _)).
Qed.

Lemma getServiceAttendance_lists_records_witness :
  ∃ l,
    AttendancePage.getServiceAttendance sunday (mkWorld weekly_db [] []) =
      (Return l, mkWorld weekly_db [] []) ∧
    AttendancePage.member_id <$> l =
      ar_member_id <$> filter (λ a, ar_service_id a = sunday) (attendance_records weekly_db) ∧
    (∀ m, m ∈ AttendancePage.member_id <$> l ↔ records_for m sunday weekly_db ≠ []) ∧
    (l = [] ↔ ∀ m, records_for m sunday weekly_db = []).
Proof. apply (getServiceAttendance_lists_records sunday weekly_db [] []). reflexivity. Defined.

(** X10: marking, then toggling, undoes the mark: for an existing member
    and service without a record of the pair, on a store that answers,
    markAttendance followed by toggleAttendance both succeed, no record of
    the pair is left, and getServiceAttendance no longer lists the member. *)
Theorem mark_then_toggle_undoes (fd : FormData) (m s : string) (db : DB)
  (fs : list (option string)) (rv : list string) (mrow : MemberRow) (svc : ServiceRow) :
  formData_get fd "memberId" = Some m →
  formData_get fd "serviceId" = Some s →
  m ≠ "" → s ≠ "" →
  members db !! m = Some mrow →
  services db !! s = Some svc →
  healthy fs →
  records_for m s db = [] →
  let run := run_seq [markAttendance fd; toggleAttendance m s] (mkWorld db fs rv) in
  run.1 = [Return Success; Return Success] ∧
  records_for m s (w_db run.2) = [] ∧
  ∃ l, (AttendancePage.getServiceAttendance s run.2).1 = Return l ∧
       m ∉ AttendancePage.member_id <$> l.
Proof.
  intros Hfm Hfsv Hm Hs Hmem Hsvc Hfs Hnone run. subst run. cbn [run_seq].
  rewrite (mark_absent m s db fs rv mrow svc) by assumption.
  rewrite (toggle_present m s (marked db m s (sv_service_date svc)) _ _ svc Hm Hs Hsvc)
    with (a := mkAttendanceRow (gen_random_uuid db) m s (sv_service_date svc));
    [|auto with store | apply (records_for_marked_same m s db svc), Hnone].
  cbn [fst snd w_db]. split; [reflexivity|].
  split; [apply records_for_unmarked_same|].
  rewrite getServiceAttendance_answered by auto 8 with store.
  eexists. split; [reflexivity|].
  rewrite attended_iff_record, records_for_unmarked_same. auto.
Qed.

Lemma mark_then_toggle_undoes_witness :
  let run := run_seq [markAttendance jane_sunday; toggleAttendance jane sunday] scenario in
  run.1 = [Return Success; Return Success] ∧
  records_for jane sunday (w_db run.2) = [] ∧
  ∃ l, (AttendancePage.getServiceAttendance sunday run.2).1 = Return l ∧
       jane ∉ AttendancePage.member_id <$> l.
Proof.
  apply (mark_then_toggle_undoes jane_sunday jane sunday scenario_db [] []
           (mkMemberRow 1 "Jane Doe" None None)
           (mkServiceRow 3 "Sunday Service" None "2024-01-07"));
    try reflexivity; try discriminate.
  constructor.
Defined.

(** * The status button of the attendance table *)

Lemma status_present l member :
  AttendanceView.status l member = "Present" ↔
  AttendancePage.id member ∈ AttendancePage.member_id <$> l.
Proof.
  unfold AttendanceView.status, AttendanceView.attendedMemberIds.
  case_bool_decide as Hin; rewrite elem_of_list_to_set in Hin; split; try done.
Qed.

(** X11: clicking a member's status button flips what the table shows for
    that member and for nobody else. For an existing member and service, a
    pair with at most one record and a store that answers, the handler
    clears the error message and refreshes the attendance so that the
    clicked member is 'Present' exactly if the member had no record before,
    and every other member is 'Present' exactly if a record of that member
    for the service exists. *)
Theorem status_click_flips (member other : AttendancePage.Member) (s : string) (db : DB)
  (fs : list (option string)) (rv : list string) (mrow : MemberRow) (svc : ServiceRow)
  (st : AttendanceView.PageState) :
  AttendancePage.id member ≠ "" → s ≠ "" →
  members db !! AttendancePage.id member = Some mrow →
  services db !! s = Some svc →
  healthy fs →
  length (records_for (AttendancePage.id member) s db) ≤ 1 →
  AttendancePage.id other ≠ AttendancePage.id member →
  ∃ st' w',
    AttendanceView.onStatusClick member s st (mkWorld db fs rv) = (Return st', w') ∧
    AttendanceView.errorMessage st' = "" ∧
    (AttendanceView.status (AttendanceView.serviceAttendance st') member = "Present" ↔
     records_for (AttendancePage.id member) s db = []) ∧
    (AttendanceView.status (AttendanceView.serviceAttendance st') other = "Present" ↔
     records_for (AttendancePage.id other) s db ≠ []).
Proof.
  intros Hm Hs Hmem Hsvc Hfs Hlen Hother. set (m := AttendancePage.id member) in *.
  unfold AttendanceView.onStatusClick. fold m. rewrite bind_eq.
  destruct (records_for m s db) as [|a [|b l]] eqn:Hrec; [| |cbn in Hlen; lia].
  - rewrite (toggle_absent m s db fs rv mrow svc) by assumption.
    cbn [AttendanceView.result_error falsy negb].
    rewrite bind_eq, getServiceAttendance_answered by auto 8 with store.
    eexists _, _. split; [reflexivity|]. split; [reflexivity|].
    cbn [AttendanceView.serviceAttendance]. rewrite !status_present, !attended_iff_record.
    fold m. rewrite (records_for_marked_same m s db svc Hrec).
    rewrite records_for_marked_other by congruence. split; [|reflexivity].
    split; [reflexivity | discriminate].
  - rewrite (toggle_present m s db fs rv svc Hm Hs Hsvc Hfs a Hrec).
    cbn [AttendanceView.result_error falsy negb].
    rewrite bind_eq, getServiceAttendance_answered by auto 8 with store.
    eexists _, _. split; [reflexivity|]. split; [reflexivity|].
    cbn [AttendanceView.serviceAttendance]. rewrite !status_present, !attended_iff_record.
    fold m. rewrite records_for_unmarked_same.
    rewrite records_for_unmarked_other by congruence. split; [|reflexivity].
    split; [intros []; reflexivity | discriminate].
Qed.

Lemma status_click_flips_witness :
  let member := AttendancePage.mkMember jane "Jane Doe" in
  let other := AttendancePage.mkMember john "John Adams" in
  let st := AttendanceView.mkPageState [] "" "" [] in
  ∃ st' w',
    AttendanceView.onStatusClick member midweek st (mkWorld weekly_db [] []) =
      (Return st', w') ∧
    AttendanceView.errorMessage st' = "" ∧
    (AttendanceView.status (AttendanceView.serviceAttendance st') member = "Present" ↔
     records_for jane midweek weekly_db = []) ∧
    (AttendanceView.status (AttendanceView.serviceAttendance st') other = "Present" ↔
     records_for john midweek weekly_db ≠ []).
Proof.
  apply (status_click_flips (AttendancePage.mkMember jane "Jane Doe")
           (AttendancePage.mkMember john "John Adams") midweek weekly_db [] []
           (mkMemberRow 1 "Jane Doe" None None)
           (mkServiceRow 4 "Midweek Prayer" None "2024-01-10")
           (AttendanceView.mkPageState [] "" "" []));
    try reflexivity; try discriminate.
  all: first [by constructor | vm_compute; lia].
Defined.

Lemma insert_branch_error_nonempty m s d db fs rv msg w' :
  insert_branch m s d db fs rv = (Return (Error msg), w') → msg ≠ "".
Proof.
  unfold insert_branch. destruct (fault_of fs); [intros [= <- _]; discriminate|].
  destruct (bool_decide _ && bool_decide _); intros [= <- _]; discriminate.
Qed.

Lemma toggleAttendance_error_nonempty m s w msg w' :
  toggleAttendance m s w = (Return (Error msg), w') → msg ≠ "".
Proof.
  destruct w as [db fs rv].
  destruct (decide (m = "")) as [Hm|Hm];
    [rewrite toggleAttendance_invalid by auto; intros [= <- _]; discriminate|].
  destruct (decide (s = "")) as [Hs|Hs];
    [rewrite toggleAttendance_invalid by auto; intros [= <- _]; discriminate|].
  rewrite toggleAttendance_run by assumption.
  destruct (fault_of fs); [intros [= <- _]; discriminate|].
  destruct (services db !! s); [|intros [= <- _]; discriminate].
  destruct (fault_of (tail fs)); [apply insert_branch_error_nonempty|].
  destruct (records_for m s db) as [|a [|b l]]; try apply insert_branch_error_nonempty.
  unfold delete_branch. destruct (fault_of (tail (tail fs))); intros [= <- _]; discriminate.
Qed.

(** X12: when toggleAttendance answers an error, the status button's
    handler shows that message, clears the success message, arms the
    five-second timer that clears the error, keeps the attendance it was
    showing and makes no further store call. *)
Theorem status_click_error (member : AttendancePage.Member) (s msg : string)
  (w w' : World) (st : AttendanceView.PageState) :
  toggleAttendance (AttendancePage.id member) s w = (Return (Error msg), w') →
  AttendanceView.onStatusClick member s st w =
  (Return (AttendanceView.mkPageState (AttendanceView.serviceAttendance st) msg ""
             (AttendanceView.timers st ++ [AttendanceView.ClearErrorMessage 5000])),
   w').
Proof.
  intros Htoggle. unfold AttendanceView.onStatusClick. rewrite bind_eq, Htoggle.
  cbn [AttendanceView.result_error falsy].
  rewrite bool_decide_eq_false_2 by (eapply toggleAttendance_error_nonempty, Htoggle).
  reflexivity.
Qed.

Lemma status_click_error_witness :
  let member := AttendancePage.mkMember jane "Jane Doe" in
  let st := AttendanceView.mkPageState [] "" "saved" [] in
  AttendanceView.onStatusClick member sunday st (mkWorld scenario_db [Some "fetch failed"] []) =
  (Return (AttendanceView.mkPageState [] "Failed to fetch service details: fetch failed" ""
             [AttendanceView.ClearErrorMessage 5000]),
   scenario).
Proof.
  apply (status_click_error (AttendancePage.mkMember jane "Jane Doe") sunday
           "Failed to fetch service details: fetch failed"
           (mkWorld scenario_db [Some "fetch failed"] []) scenario
           (AttendanceView.mkPageState [] "" "saved" [])).
  reflexivity.
Defined.

(** * Groups of the records page *)

Lemma group_step_appends acc r :
  RecordsPage.serviceName r ∉ RecordsPage.object_prototype_keys →
  RecordsPage.group_step (Return acc) r =
  Return (<[RecordsPage.serviceName r :=
            default [] (acc !! RecordsPage.serviceName r) ++ [r]]> acc).
Proof.
  intros Hkey. unfold RecordsPage.group_step.
  destruct (acc !! RecordsPage.serviceName r); [reflexivity|].
  rewrite bool_decide_eq_false_2 by assumption. reflexivity.
Qed.

Lemma grouping_from acc recs :
  Forall (λ r, RecordsPage.serviceName r ∉ RecordsPage.object_prototype_keys) recs →
  ∃ groups, foldl RecordsPage.group_step (Return acc) recs = Return groups ∧
    ∀ k, groups !! k =
         match acc !! k, filter (λ r, RecordsPage.serviceName r = k) recs with
         | None, [] => None
         | group, l => Some (default [] group ++ l)
         end.
Proof.
  intros Hkeys. revert acc. induction Hkeys as [|r recs Hr _ IH]; intros acc.
  - exists acc. split; [reflexivity|]. intros k. rewrite filter_nil.
    destruct (acc !! k); cbn; rewrite ?app_nil_r; reflexivity.
  - cbn [foldl]. rewrite (group_step_appends acc r Hr).
    destruct (IH (<[RecordsPage.serviceName r :=
                     default [] (acc !! RecordsPage.serviceName r) ++ [r]]> acc))
      as (groups & Hfold & Hgroups).
    exists groups. split; [exact Hfold|]. intros k. rewrite Hgroups, filter_cons.
    destruct (decide (RecordsPage.serviceName r = k)) as [<-|Hne].
    + rewrite lookup_insert_eq. cbn [from_option id].
      rewrite <- app_assoc. cbn [app].
      destruct (acc !! RecordsPage.serviceName r); reflexivity.
    + rewrite lookup_insert_ne by assumption. reflexivity.
Qed.

(** X13: when no record is filed under a name that Object.prototype owns,
    recordsByService returns one group per service name that occurs, holding
    exactly the records of that name in the order of the input; no group is
    empty, and there is no group at all exactly when there are no records. *)
Theorem recordsByService_partitions (recs : list RecordsPage.AttendanceRecord) :
  Forall (λ r, RecordsPage.serviceName r ∉ RecordsPage.object_prototype_keys) recs →
  ∃ groups,
    RecordsPage.recordsByService recs = Return groups ∧
    (∀ k, groups !! k =
          match filter (λ r, RecordsPage.serviceName r = k) recs with
          | [] => None
          | group => Some group
          end) ∧
    (groups = ∅ ↔ recs = []).
Proof.
  intros Hkeys. destruct (grouping_from ∅ recs Hkeys) as (groups & Hfold & Hgroups).
  assert (∀ k, groups !! k =
               match filter (λ r, RecordsPage.serviceName r = k) recs with
               | [] => None
               | group => Some group
               end) as Hlook.
  { intros k. rewrite Hgroups, lookup_empty. reflexivity. }
  exists groups. split; [exact Hfold|]. split; [exact Hlook|]. split.
  - intros ->. destruct recs as [|r recs]; [reflexivity|].
    specialize (Hlook (RecordsPage.serviceName r)).
    rewrite lookup_empty, filter_cons, decide_True in Hlook by reflexivity. discriminate.
  - intros ->. apply map_eq. intros k. rewrite Hlook, lookup_empty. reflexivity.
Qed.

Lemma recordsByService_partitions_witness :
  ∃ groups,
    RecordsPage.recordsByService (RecordsPage.joined weekly_db <$> attendance_records weekly_db)
      = Return groups ∧
    (∀ k, groups !! k =
          match filter (λ r, RecordsPage.serviceName r = k)
                  (RecordsPage.joined weekly_db <$> attendance_records weekly_db) with
          | [] => None
          | group => Some group
          end) ∧
    (groups = ∅ ↔ RecordsPage.joined weekly_db <$> attendance_records weekly_db = []).
Proof.
  apply (recordsByService_partitions
           (RecordsPage.joined weekly_db <$> attendance_records weekly_db)).
  apply (bool_decide_unpack _). vm_compute. exact I.
Defined.

Lemma foldl_group_step_stopped recs
  (acc : outcome (gmap string (list RecordsPage.AttendanceRecord))) :
  (∀ a, acc ≠ Return a) → foldl RecordsPage.group_step acc recs = acc.
Proof.
  revert acc. induction recs as [|r recs IH]; intros acc Hacc; [reflexivity|].
  cbn [foldl]. destruct acc as [a| |]; [destruct (Hacc a eq_refl)| |]; apply IH; done.
Qed.

Lemma grouping_throws acc recs :
  (∀ k, k ∈ RecordsPage.object_prototype_keys → acc !! k = None) →
  Exists (λ r, RecordsPage.serviceName r ∈ RecordsPage.object_prototype_keys) recs →
  foldl RecordsPage.group_step (Return acc) recs =
  Throw "TypeError: acc[serviceName].push is not a function".
Proof.
  intros Hacc Hex. revert acc Hacc.
  induction recs as [|r recs IH]; intros acc Hacc; [inversion Hex|].
  cbn [foldl].
  destruct (decide (RecordsPage.serviceName r ∈ RecordsPage.object_prototype_keys))
    as [Hkey|Hkey].
  - unfold RecordsPage.group_step at 2. rewrite (Hacc _ Hkey), bool_decide_eq_true_2 by assumption.
    apply foldl_group_step_stopped. done.
  - rewrite (group_step_appends acc r Hkey). apply IH.
    + inversion Hex; subst; [contradiction | assumption].
    + intros k Hk. rewrite lookup_insert_ne; [apply Hacc, Hk|]. intros <-. contradiction.
Qed.

(** X14: recordsByService throws a TypeError, and the records page with it,
    exactly when some record is filed under a name that Object.prototype
    owns, such as 'constructor' or 'toString'; otherwise it returns the
    groups. *)
Theorem recordsByService_throws_iff (recs : list RecordsPage.AttendanceRecord) :
  (∃ msg, RecordsPage.recordsByService recs = Throw msg) ↔
  Exists (λ r, RecordsPage.serviceName r ∈ RecordsPage.object_prototype_keys) recs.
Proof.
  split.
  - intros (msg & Hthrow).
    destruct (decide (Exists (λ r, RecordsPage.serviceName r ∈
                                   RecordsPage.object_prototype_keys) recs))
      as [Hex|Hnone]; [exact Hex|].
    apply not_Exists_Forall in Hnone; [|apply _].
    destruct (grouping_from ∅ recs) as (groups & Hfold & _).
    { eapply Forall_impl; [exact Hnone|]. intros r Hr. exact Hr. }
    unfold RecordsPage.recordsByService in Hthrow. congruence.
  - intros Hex. eexists. apply grouping_throws; [|exact Hex].
    intros k _. apply lookup_empty.
Qed.

(** * The directory of the admin page *)

Lemma all_services_order {Service K} (le : K → K → bool) (key : Service → K) asc
  (id name date : Service → string) (row : string * ServiceRow → Service) db :
  (∀ kv, id (row kv) = kv.1 ∧ name (row kv) = sv_name kv.2 ∧
         date (row kv) = sv_service_date kv.2) →
  all_services id name date db (order le key asc (row <$> map_to_list (services db))).
Proof.
  intros Hrow. unfold all_services. rewrite order_perm, <- list_fmap_compose.
  apply eq_subrelation; [apply _|]. apply list_fmap_ext. intros i kv _. cbn.
  destruct (Hrow kv) as (-> & -> & ->). reflexivity.
Qed.

(** X15: when the query is answered, getServices of the attendance page and
    getServices of the admin page both return every service once, ordered by
    service date descending, and leave the store as it was. *)
Theorem getServices_descending (db : DB) (fs : list (option string)) (rv : list string) :
  fault_of fs = None →
  let w := mkWorld db fs rv in
  let w' := mkWorld db (tail fs) rv in
  (∃ l, AttendancePage.getServices w = (Return l, w') ∧
        all_services AttendancePage.s_id AttendancePage.name AttendancePage.service_date db l ∧
        descending text_le AttendancePage.service_date l) ∧
  (∃ l, AdminPage.getServices w = (Return l, w') ∧
        all_services AdminPage.s_id AdminPage.name AdminPage.service_date db l ∧
        descending text_le AdminPage.service_date l).
Proof.
  intros Hfault w w'. subst w w'. split.
  - unfold AttendancePage.getServices. store_call. rewrite Hfault.
    cbn [error ok data from_option id mret M_ret].
    eexists. split; [reflexivity|]. split.
    + apply all_services_order. intros kv. repeat split; reflexivity.
    + apply order_descending; [apply text_le_total | apply string_leb_trans].
  - unfold AdminPage.getServices. store_call. rewrite Hfault.
    cbn [error ok data from_option id mret M_ret].
    eexists. split; [reflexivity|]. split.
    + apply all_services_order. intros kv. repeat split; reflexivity.
    + apply order_descending; [apply text_le_total | apply string_leb_trans].
Qed.

Lemma getServices_descending_witness :
  (∃ l, AttendancePage.getServices scenario = (Return l, scenario) ∧
        all_services AttendancePage.s_id AttendancePage.name AttendancePage.service_date
          scenario_db l ∧
        descending text_le AttendancePage.service_date l) ∧
  (∃ l, AdminPage.getServices scenario = (Return l, scenario) ∧
        all_services AdminPage.s_id AdminPage.name AdminPage.service_date scenario_db l ∧
        descending text_le AdminPage.service_date l).
Proof. apply (getServices_descending scenario_db [] []). reflexivity. Defined.

Lemma date_taken_true db date :
  date_taken db date = true ↔
  ∃ s svc, services db !! s = Some svc ∧ sv_service_date svc = date.
Proof.
  unfold date_taken. rewrite bool_decide_eq_true, Exists_exists. split.
  - intros ([s svc] & Hin & Hdate). apply elem_of_map_to_list in Hin. eauto.
  - intros (s & svc & Hlook & Hdate). exists (s, svc). split; [|exact Hdate].
    apply elem_of_map_to_list, Hlook.
Qed.

Lemma insert_service_eq name description date db fs rv :
  insert_service name description date (mkWorld db fs rv) =
  match fault_of fs with
  | Some msg => (Return (failed msg), mkWorld db (tail fs) rv)
  | None =>
    if date_taken db date
    then (Return (failed "duplicate key value violates unique constraint services_service_date_key"),
          mkWorld db (tail fs) rv)
    else (Return (mkResponse None None),
          mkWorld (mkDB (members db)
                     (<[gen_random_uuid db := mkServiceRow (db_seq db) name description date]>
                        (services db))
                     (attendance_records db) (N.succ (db_seq db)))
            (tail fs) rv)
  end.
Proof.
  unfold insert_service, mbind, M_bind, mret, M_ret, next_fault, get_db, put_db.
  destruct fs as [|[msg|] fs']; cbn; try reflexivity; destruct (date_taken db date); reflexivity.
Qed.

Lemma insert_member_eq full_name phone email db fs rv :
  insert_member full_name phone email (mkWorld db fs rv) =
  match fault_of fs with
  | Some msg => (Return (failed msg), mkWorld db (tail fs) rv)
  | None =>
    (Return (mkResponse None None),
     mkWorld (mkDB (<[gen_random_uuid db := mkMemberRow (db_seq db) full_name phone email]>
                      (members db))
                (services db) (attendance_records db) (N.succ (db_seq db)))
       (tail fs) rv)
  end.
Proof. destruct fs as [|[msg|] fs']; reflexivity. Qed.

(** X16: addService refuses a date that a service already has: with a name
    and a date in the form and a store that answers, if the services table
    holds a service of that date, addService throws 'Failed to add service:
    ...' and the database is unchanged. *)
Theorem addService_taken_date (fd : FormData) (name date s : string) (svc : ServiceRow)
  (db : DB) (fs : list (option string)) (rv : list string) :
  formData_get fd "name" = Some name → name ≠ "" →
  formData_get fd "service_date" = Some date → date ≠ "" →
  fault_of fs = None →
  services db !! s = Some svc →
  sv_service_date svc = date →
  ∃ msg,
    AdminPage.addService fd (mkWorld db fs rv) =
      (Throw ("Failed to add service: " +:+ msg), mkWorld db (tail fs) rv).
Proof.
  intros Hname Hname_ne Hdate Hdate_ne Hfault Hsvc Hsame.
  unfold AdminPage.addService.
  rewrite Hname, Hdate, !falsy_Some, !bool_decide_eq_false_2 by assumption. cbn [orb].
  rewrite bind_eq, insert_service_eq, Hfault. cbn [from_option id].
  assert (date_taken db date = true) as -> by (apply date_taken_true; eauto).
  eexists. reflexivity.
Qed.

Lemma addService_taken_date_witness :
  ∃ msg,
    AdminPage.addService [("name", "Watch Night"); ("service_date", "2024-01-07")] scenario =
      (Throw ("Failed to add service: " +:+ msg), scenario).
Proof.
  apply (addService_taken_date [("name", "Watch Night"); ("service_date", "2024-01-07")]
           "Watch Night" "2024-01-07" sunday
           (mkServiceRow 3 "Sunday Service" None "2024-01-07") scenario_db [] []);
    try reflexivity; discriminate.
Defined.

Lemma addMember_run fd db fs rv :
  AdminPage.addMember fd (mkWorld db fs rv) =
  if falsy (formData_get fd "full_name")
  then (Throw "Full name is required", mkWorld db fs rv)
  else
    match fault_of fs with
    | Some msg => (Throw ("Failed to add member: " +:+ msg), mkWorld db (tail fs) rv)
    | None =>
      (Redirect "/admin?success=member",
       mkWorld (with_member db (default "" (formData_get fd "full_name"))
                  (formData_get fd "phone_number") (formData_get fd "email"))
         (tail fs) (rv ++ ["/admin"]))
    end.
Proof.
  unfold AdminPage.addMember. destruct (falsy (formData_get fd "full_name")); [reflexivity|].
  rewrite bind_eq, insert_member_eq. destruct (fault_of fs); reflexivity.
Qed.

Lemma addService_run fd db fs rv :
  AdminPage.addService fd (mkWorld db fs rv) =
  if falsy (formData_get fd "name") || falsy (formData_get fd "service_date")
  then (Throw "Service name and date are required", mkWorld db fs rv)
  else
    match fault_of fs with
    | Some msg => (Throw ("Failed to add service: " +:+ msg), mkWorld db (tail fs) rv)
    | None =>
      if date_taken db (default "" (formData_get fd "service_date"))
      then (Throw ("Failed to add service: " +:+
                   "duplicate key value violates unique constraint services_service_date_key"),
            mkWorld db (tail fs) rv)
      else
        (Redirect "/admin?success=service",
         mkWorld (with_service db (default "" (formData_get fd "name"))
                    (formData_get fd "description")
                    (default "" (formData_get fd "service_date")))
           (tail fs) (rv ++ ["/admin"]))
    end.
Proof.
  unfold AdminPage.addService.
  destruct (falsy (formData_get fd "name") || falsy (formData_get fd "service_date"));
    [reflexivity|].
  rewrite bind_eq, insert_service_eq. destruct (fault_of fs); [reflexivity|].
  destruct (date_taken db _); reflexivity.
Qed.

(** X17: addMember and addService never return to their caller: they leave
    by throwing, with the database and the revalidation log untouched, or by
    the redirect to '/admin?success=member' (resp. 'service') after
    revalidating '/admin'. *)
Theorem directory_actions_leave (fd : FormData) (w : World) :
  match AdminPage.addMember fd w with
  | (Return _, _) => False
  | (Throw _, w') => w_db w' = w_db w ∧ w_revalidated w' = w_revalidated w
  | (Redirect url, w') =>
    url = "/admin?success=member" ∧ w_revalidated w' = w_revalidated w ++ ["/admin"]
  end ∧
  match AdminPage.addService fd w with
  | (Return _, _) => False
  | (Throw _, w') => w_db w' = w_db w ∧ w_revalidated w' = w_revalidated w
  | (Redirect url, w') =>
    url = "/admin?success=service" ∧ w_revalidated w' = w_revalidated w ++ ["/admin"]
  end.
Proof.
  destruct w as [db fs rv]. rewrite addMember_run, addService_run. split.
  - destruct (falsy _); [auto|]. destruct (fault_of fs); auto.
  - destruct (falsy _ || falsy _); [auto|]. destruct (fault_of fs); [auto|].
    destruct (date_taken db _); auto.
Qed.

Lemma dates_unique_with_service db name description date :
  dates_unique db → date_taken db date = false →
  dates_unique (with_service db name description date).
Proof.
  intros Huniq Hfree s1 s2 svc1 svc2. unfold with_service; cbn [services].
  assert (∀ s svc, services db !! s = Some svc → sv_service_date svc ≠ date) as Hnot.
  { intros s svc Hlook Hdate.
    assert (date_taken db date = true) by (apply date_taken_true; eauto). congruence. }
  rewrite !lookup_insert.
  destruct (decide (gen_random_uuid db = s1)) as [<-|Hs1];
    destruct (decide (gen_random_uuid db = s2)) as [<-|Hs2]; try done.
  - intros [= <-] Hlook Hdate. cbn in Hdate. destruct (Hnot _ _ Hlook). congruence.
  - intros Hlook [= <-] Hdate. cbn in Hdate. destruct (Hnot _ _ Hlook). congruence.
  - apply Huniq.
Qed.

(** X18: addService keeps the dates of the services distinct: from a store
    where no two services share a date, the store after addService, thrown
    or redirected, still has no two services of the same date. *)
Theorem addService_keeps_dates_unique (fd : FormData) (w : World) :
  dates_unique (w_db w) → dates_unique (db_after (AdminPage.addService fd) w).
Proof.
  intros Huniq. destruct w as [db fs rv]. unfold db_after. rewrite addService_run.
  destruct (falsy _ || falsy _); [exact Huniq|].
  destruct (fault_of fs); [exact Huniq|].
  destruct (date_taken db _) eqn:Hfree; [exact Huniq|].
  apply dates_unique_with_service; assumption.
Qed.

Lemma addService_keeps_dates_unique_witness :
  dates_unique
    (db_after (AdminPage.addService [("name", "Evening Service"); ("service_date", "2024-01-21")])
       scenario).
Proof.
  apply (addService_keeps_dates_unique
           [("name", "Evening Service"); ("service_date", "2024-01-21")] scenario).
  intros s1 s2 svc1 svc2 H1 H2 Hdate. cbn [w_db scenario] in H1, H2.
  unfold scenario_db in H1, H2; cbn [services] in H1, H2.
  rewrite !lookup_insert, lookup_empty in H1, H2.
  repeat case_decide; simplify_eq; try reflexivity; discriminate.
Defined.

Lemma AdminPage_getMembers_answered db fs rv :
  fault_of fs = None →
  AdminPage.getMembers (mkWorld db fs rv) =
  (Return (order timestamp_le AdminPage.created_at false
             ((λ kv, AdminPage.mkMember kv.1 (m_created_at kv.2) (m_full_name kv.2)
                       (m_phone_number kv.2) (m_email kv.2))
                <$> map_to_list (members db))),
   mkWorld db (tail fs) rv).
Proof.
  intros Hfault. unfold AdminPage.getMembers. store_call. rewrite Hfault. reflexivity.
Qed.

Lemma AttendancePage_getMembers_answered db fs rv :
  fault_of fs = None →
  AttendancePage.getMembers (mkWorld db fs rv) =
  (Return (order text_le AttendancePage.full_name true
             ((λ kv, AttendancePage.mkMember kv.1 (m_full_name kv.2))
                <$> map_to_list (members db))),
   mkWorld db (tail fs) rv).
Proof.
  intros Hfault. unfold AttendancePage.getMembers. store_call. rewrite Hfault. reflexivity.
Qed.

Lemma elem_of_order_rows {A B K} (le : K → K → bool) (key : B → K) asc
  (row : string * A → B) (tbl : gmap string A) k x :
  tbl !! k = Some x → row (k, x) ∈ order le key asc (row <$> map_to_list tbl).
Proof.
  intros Hlook. rewrite order_perm. apply list_elem_of_fmap_2, elem_of_map_to_list, Hlook.
Qed.

(** X19: a member added through the form is listed afterwards. With a
    non-empty full name and a store that answers, addMember redirects to
    '/admin?success=member', and the next getMembers of the admin page lists
    a member with the form's full name, phone number and email, as the next
    getMembers of the attendance page lists one with that id and full name. *)
Theorem addMember_then_listed (fd : FormData) (full_name : string) (db : DB)
  (fs : list (option string)) (rv : list string) :
  formData_get fd "full_name" = Some full_name → full_name ≠ "" →
  healthy fs →
  let added := AdminPage.addMember fd (mkWorld db fs rv) in
  added.1 = Redirect "/admin?success=member" ∧
  (∃ l, (AdminPage.getMembers added.2).1 = Return l ∧
        AdminPage.mkMember (gen_random_uuid db) (db_seq db) full_name
          (formData_get fd "phone_number") (formData_get fd "email") ∈ l) ∧
  (∃ l, (AttendancePage.getMembers added.2).1 = Return l ∧
        AttendancePage.mkMember (gen_random_uuid db) full_name ∈ l).
Proof.
  intros Hname Hne Hfs added. subst added.
  rewrite addMember_run, Hname, falsy_Some, bool_decide_eq_false_2 by assumption.
  rewrite (healthy_fault_of fs) by assumption. cbn [fst snd from_option id].
  split; [reflexivity|]. split.
  - rewrite AdminPage_getMembers_answered by auto with store.
    eexists. split; [reflexivity|].
    apply (elem_of_order_rows timestamp_le AdminPage.created_at false
             (λ kv, AdminPage.mkMember kv.1 (m_created_at kv.2) (m_full_name kv.2)
                      (m_phone_number kv.2) (m_email kv.2))
             _ (gen_random_uuid db)
             (mkMemberRow (db_seq db) full_name (formData_get fd "phone_number")
                (formData_get fd "email"))).
    apply lookup_insert_eq.
  - rewrite AttendancePage_getMembers_answered by auto with store.
    eexists. split; [reflexivity|].
    apply (elem_of_order_rows text_le AttendancePage.full_name true
             (λ kv, AttendancePage.mkMember kv.1 (m_full_name kv.2))
             _ (gen_random_uuid db)
             (mkMemberRow (db_seq db) full_name (formData_get fd "phone_number")
                (formData_get fd "email"))).
    apply lookup_insert_eq.
Qed.

Lemma addMember_then_listed_witness :
  let fd := [("full_name", "Mary Major"); ("email", "mary@example.org")] in
  let added := AdminPage.addMember fd scenario in
  added.1 = Redirect "/admin?success=member" ∧
  (∃ l, (AdminPage.getMembers added.2).1 = Return l ∧
        AdminPage.mkMember "5" 5 "Mary Major" None (Some "mary@example.org") ∈ l) ∧
  (∃ l, (AttendancePage.getMembers added.2).1 = Return l ∧
        AttendancePage.mkMember "5" "Mary Major" ∈ l).
Proof.
  apply (addMember_then_listed [("full_name", "Mary Major"); ("email", "mary@example.org")]
           "Mary Major" scenario_db [] []);
    [reflexivity | discriminate | constructor].
Defined.

Lemma two_in_filter {A} (P : A → Prop) `{∀ x, Decision (P x)} (l : list A) x y :
  x ∈ l → y ∈ l → x ≠ y → P x → P y → 2 ≤ length (filter P l).
Proof.
  intros Hx Hy Hne HPx HPy.
  assert ([x; y] ⊆+ filter P l) as Hsub.
  { apply NoDup_submseteq.
    - apply NoDup_cons. split; [|apply NoDup_singleton].
      intros Hin. apply list_elem_of_singleton in Hin. contradiction.
    - intros z Hz. apply list_elem_of_filter.
      apply elem_of_cons in Hz as [->|Hz]; [done|].
      apply elem_of_cons in Hz as [->|Hz]; [done|]. inversion Hz. }
  apply submseteq_length in Hsub. exact Hsub.
Qed.

(** X20: addMember makes no duplicate-name check: submitting the same form
    twice to a store that answers redirects twice, and the members listed
    afterwards include two different members with that full name. *)
Theorem addMember_twice_two_members (fd : FormData) (full_name : string) (db : DB)
  (fs : list (option string)) (rv : list string) :
  formData_get fd "full_name" = Some full_name → full_name ≠ "" →
  healthy fs →
  let first := AdminPage.addMember fd (mkWorld db fs rv) in
  let second := AdminPage.addMember fd first.2 in
  first.1 = Redirect "/admin?success=member" ∧
  second.1 = Redirect "/admin?success=member" ∧
  ∃ l, (AttendancePage.getMembers second.2).1 = Return l ∧
       2 ≤ length (filter (λ r, AttendancePage.full_name r = full_name) l).
Proof.
  intros Hname Hne Hfs first second. subst second first.
  rewrite addMember_run, Hname, falsy_Some, bool_decide_eq_false_2 by assumption.
  rewrite (healthy_fault_of fs) by assumption. cbn [fst snd from_option id].
  rewrite addMember_run, Hname, falsy_Some, bool_decide_eq_false_2 by assumption.
  rewrite (healthy_fault_of (tail fs)) by auto with store. cbn [fst snd from_option id].
  split; [reflexivity|]. split; [reflexivity|].
  rewrite AttendancePage_getMembers_answered by auto 8 with store.
  eexists. split; [reflexivity|].
  set (db1 := with_member db full_name (formData_get fd "phone_number")
                (formData_get fd "email")).
  assert (gen_random_uuid db1 ≠ gen_random_uuid db) as Hfresh.
  { unfold gen_random_uuid, db1, with_member; cbn [db_seq].
    intros Heq. apply (inj pretty) in Heq. lia. }
  apply (two_in_filter _ _
           (AttendancePage.mkMember (gen_random_uuid db1) full_name)
           (AttendancePage.mkMember (gen_random_uuid db) full_name));
    [| | congruence | reflexivity | reflexivity].
  - apply (elem_of_order_rows text_le AttendancePage.full_name true
             (λ kv, AttendancePage.mkMember kv.1 (m_full_name kv.2))
             _ (gen_random_uuid db1)
             (mkMemberRow (db_seq db1) full_name (formData_get fd "phone_number")
                (formData_get fd "email"))).
    apply lookup_insert_eq.
  - apply (elem_of_order_rows text_le AttendancePage.full_name true
             (λ kv, AttendancePage.mkMember kv.1 (m_full_name kv.2))
             _ (gen_random_uuid db)
             (mkMemberRow (db_seq db) full_name (formData_get fd "phone_number")
                (formData_get fd "email"))).
    cbn [with_member members]. rewrite lookup_insert_ne by assumption.
    apply lookup_insert_eq.
Qed.

Lemma addMember_twice_two_members_witness :
  let fd := [("full_name", "Jane Doe")] in
  let first := AdminPage.addMember fd scenario in
  let second := AdminPage.addMember fd first.2 in
  first.1 = Redirect "/admin?success=member" ∧
  second.1 = Redirect "/admin?success=member" ∧
  ∃ l, (AttendancePage.getMembers second.2).1 = Return l ∧
       2 ≤ length (filter (λ r, AttendancePage.full_name r = "Jane Doe") l).
Proof.
  apply (addMember_twice_two_members [("full_name", "Jane Doe")] "Jane Doe" scenario_db [] []);
    [reflexivity | discriminate | constructor].
Defined.

(** * The submit button *)

(** X21: the submit button is disabled exactly when the filtered member
    list is empty or no member is selected. Because the conditional
    operator binds weaker than [||], neither a pending submission nor a
    missing service selection disables it. *)
Theorem submitDisabled_ignores_pending (toLowerCase : string → string)
  (startsWith : string → string → bool) (isPending : bool)
  (selectedServiceId selectedLetter selectedMemberId : string)
  (members : list AttendancePage.Member) :
  AttendanceView.submitDisabled toLowerCase startsWith isPending selectedServiceId
    selectedLetter selectedMemberId members =
  bool_decide
    (length (AttendanceView.filteredMembers toLowerCase startsWith members selectedLetter) = 0)
  || falsy (Some selectedMemberId).
Proof.
  unfold AttendanceView.submitDisabled.
  destruct (isPending || falsy (Some selectedServiceId) || negb (falsy (Some selectedLetter)))
    eqn:Hcond; [reflexivity|].
  apply orb_false_iff in Hcond as [_ Hletter]. apply negb_false_iff in Hletter.
  unfold AttendanceView.filteredMembers. rewrite Hletter. reflexivity.
Qed.

(** * Selecting a service *)

(** X22: what the table shows after a service is selected. With a selected
    service and an answered query, a member is shown 'Present' exactly when a
    record of the member for that service exists; with no service selected
    the effect asks the store nothing and everybody is shown 'Absent'. *)
Theorem fetchAttendance_status (member : AttendancePage.Member) (s : string) (db : DB)
  (fs : list (option string)) (rv : list string) (st : AttendanceView.PageState) :
  s ≠ "" →
  fault_of fs = None →
  (∃ st',
     AttendanceView.fetchAttendance s st (mkWorld db fs rv) =
       (Return st', mkWorld db (tail fs) rv) ∧
     (AttendanceView.status (AttendanceView.serviceAttendance st') member = "Present" ↔
      records_for (AttendancePage.id member) s db ≠ [])) ∧
  (∃ st',
     AttendanceView.fetchAttendance "" st (mkWorld db fs rv) = (Return st', mkWorld db fs rv) ∧
     AttendanceView.status (AttendanceView.serviceAttendance st') member = "Absent").
Proof.
  intros Hs Hfault. split.
  - unfold AttendanceView.fetchAttendance.
    rewrite falsy_Some, bool_decide_eq_false_2 by assumption. cbn [negb].
    rewrite bind_eq, getServiceAttendance_answered by assumption.
    eexists. split; [reflexivity|].
    cbn [AttendanceView.serviceAttendance]. rewrite status_present. apply attended_iff_record.
  - eexists. split; reflexivity.
Qed.

Lemma fetchAttendance_status_witness :
  let member := AttendancePage.mkMember john "John Adams" in
  let st := AttendanceView.mkPageState [] "" "" [] in
  (∃ st',
     AttendanceView.fetchAttendance midweek st (mkWorld weekly_db [] []) =
       (Return st', mkWorld weekly_db [] []) ∧
     (AttendanceView.status (AttendanceView.serviceAttendance st') member = "Present" ↔
      records_for john midweek weekly_db ≠ [])) ∧
  (∃ st',
     AttendanceView.fetchAttendance "" st (mkWorld weekly_db [] []) =
       (Return st', mkWorld weekly_db [] []) ∧
     AttendanceView.status (AttendanceView.serviceAttendance st') member = "Absent").
Proof.
  apply (fetchAttendance_status (AttendancePage.mkMember john "John Adams") midweek weekly_db
           [] [] (AttendanceView.mkPageState [] "" "" []));
    [discriminate | reflexivity].
Defined.

(** * Unknown members *)

(** X23: attendance cannot be recorded for a member the store does not
    know: with an existing service and a store that answers, when the
    members table has no row of the given id, both actions answer an error
    that begins with 'Failed to mark attendance' and write nothing. *)
Theorem unknown_member_rejected (fd : FormData) (m s : string) (db : DB)
  (fs : list (option string)) (rv : list string) (svc : ServiceRow) :
  formData_get fd "memberId" = Some m →
  formData_get fd "serviceId" = Some s →
  m ≠ "" → s ≠ "" →
  members db !! m = None →
  services db !! s = Some svc →
  references_ok db →
  healthy fs →
  ∃ msg,
    is_prefix_of "Failed to mark attendance" msg ∧
    markAttendance fd (mkWorld db fs rv) =
      (Return (Error msg), mkWorld db (tail (tail (tail fs))) rv) ∧
    toggleAttendance m s (mkWorld db fs rv) =
      (Return (Error msg), mkWorld db (tail (tail (tail fs))) rv).
Proof.
  intros Hfm Hfsv Hm Hs Hmem Hsvc Hrefs Hfs.
  assert (records_for m s db = []) as Hnone.
  { unfold records_for. destruct (filter _ _) as [|a l] eqn:Hf; [reflexivity|].
    assert (a ∈ filter (λ a, ar_matches m s a = true) (attendance_records db)) as Ha
      by (rewrite Hf; left).
    apply list_elem_of_filter in Ha as [Hmatch Ha].
    apply ar_matches_true in Hmatch as [Hid _].
    unfold references_ok in Hrefs. rewrite Forall_forall in Hrefs.
    destruct (Hrefs a Ha) as [[mrow Hrow] _]. congruence. }
  rewrite (markAttendance_run fd m s), toggleAttendance_run by assumption.
  rewrite (healthy_fault_of fs), Hsvc, (healthy_fault_of (tail fs)), Hnone by auto with store.
  unfold insert_branch. rewrite (healthy_fault_of (tail (tail fs))) by auto with store.
  rewrite Hmem. rewrite bool_decide_eq_false_2 by (intros [? ?]; discriminate). cbn [andb].
  eexists. split; [|split; reflexivity].
  exists (": insert on table attendance_records violates foreign key constraint").
  reflexivity.
Qed.

Lemma unknown_member_rejected_witness :
  ∃ msg,
    is_prefix_of "Failed to mark attendance" msg ∧
    markAttendance [("memberId", "0000-nobody"); ("serviceId", sunday)] scenario =
      (Return (Error msg), scenario) ∧
    toggleAttendance "0000-nobody" sunday scenario = (Return (Error msg), scenario).
Proof.
  apply (unknown_member_rejected [("memberId", "0000-nobody"); ("serviceId", sunday)]
           "0000-nobody" sunday scenario_db [] []
           (mkServiceRow 3 "Sunday Service" None "2024-01-07"));
    try reflexivity; try discriminate.
  all: by constructor.
Defined.

(** * C6: counting the groups against the services *)















(** * C9: results and exceptions of every operation *)

Lemma all_service_rows_order db :
  all_service_rows db
    (order text_le AdminPage.service_date false
       ((λ kv, AdminPage.mkService kv.1 (sv_created_at kv.2) (sv_name kv.2)
                 (sv_description kv.2) (sv_service_date kv.2))
          <$> map_to_list (services db))).
Proof.
  unfold all_service_rows. rewrite <- (list_fmap_id (map_to_list (services db))) at 2.
  apply fmap_order_rows. intros [k [created name description date]]. reflexivity.
Qed.

Lemma all_listed_services_order db :
  all_listed_services db
    (order text_le AttendancePage.service_date false
       ((λ kv, AttendancePage.mkService kv.1 (sv_name kv.2) (sv_description kv.2)
                 (sv_service_date kv.2))
          <$> map_to_list (services db))).
Proof. unfold all_listed_services. apply fmap_order_rows. intros kv. reflexivity. Qed.

(** C9, as the code has it: markAttendance and toggleAttendance return a
    success or error value from every world. The read queries
    getServiceAttendance, getAttendanceRecords, getMembers and getServices
    raise when the store call fails and return their rows when it is
    answered. addMember and addService raise when the insert fails and when
    a required field (full name; name, service date) is missing or empty. *)
Theorem results_and_raises
  (fd member_form service_form no_full_name no_name no_date : FormData)
  (m s service_id msg full_name name date : string)
  (w0 : World) (db : DB) (fs fs_ok : list (option string)) (rv : list string) :
  fault_of fs = Some msg →
  fault_of fs_ok = None →
  formData_get member_form "full_name" = Some full_name → full_name ≠ "" →
  formData_get service_form "name" = Some name → name ≠ "" →
  formData_get service_form "service_date" = Some date → date ≠ "" →
  empty_id (formData_get no_full_name "full_name") →
  empty_id (formData_get no_name "name") →
  empty_id (formData_get no_date "service_date") →
  let w := mkWorld db fs rv in
  let w' := mkWorld db (tail fs) rv in
  let w_ok := mkWorld db fs_ok rv in
  let w_ok' := mkWorld db (tail fs_ok) rv in
  (∃ r, (markAttendance fd w0).1 = Return r) ∧
  (∃ r, (toggleAttendance m s w0).1 = Return r) ∧
  (AttendancePage.getServiceAttendance service_id w =
     (Throw ("Failed to fetch service attendance: " +:+ msg), w') ∧
   RecordsPage.getAttendanceRecords w =
     (Throw ("Failed to fetch attendance records: " +:+ msg), w') ∧
   AttendancePage.getMembers w = (Throw ("Failed to fetch members: " +:+ msg), w') ∧
   AttendancePage.getServices w = (Throw ("Failed to fetch services: " +:+ msg), w') ∧
   AdminPage.getMembers w = (Throw ("Failed to fetch members: " +:+ msg), w') ∧
   AdminPage.getServices w = (Throw ("Failed to fetch services: " +:+ msg), w')) ∧
  (AttendancePage.getServiceAttendance service_id w_ok =
     (Return ((λ a, AttendancePage.mkAttendanceRecord (ar_id a) (ar_member_id a)
                      (ar_service_date a))
                <$> filter (λ a, ar_service_id a = service_id) (attendance_records db)),
      w_ok') ∧
   (∃ l, RecordsPage.getAttendanceRecords w_ok = (Return l, w_ok') ∧
         l ≡ₚ RecordsPage.joined db <$> attendance_records db) ∧
   (∃ l, AttendancePage.getMembers w_ok = (Return l, w_ok') ∧
         all_members AttendancePage.id AttendancePage.full_name db l) ∧
   (∃ l, AttendancePage.getServices w_ok = (Return l, w_ok') ∧ all_listed_services db l) ∧
   (∃ l, AdminPage.getMembers w_ok = (Return l, w_ok') ∧ all_member_rows db l) ∧
   (∃ l, AdminPage.getServices w_ok = (Return l, w_ok') ∧ all_service_rows db l)) ∧
  (AdminPage.addMember member_form w = (Throw ("Failed to add member: " +:+ msg), w') ∧
   AdminPage.addService service_form w = (Throw ("Failed to add service: " +:+ msg), w') ∧
   AdminPage.addMember no_full_name w0 = (Throw "Full name is required", w0) ∧
   AdminPage.addService no_name w0 = (Throw "Service name and date are required", w0) ∧
   AdminPage.addService no_date w0 = (Throw "Service name and date are required", w0)).
Proof.
  intros Hfault Hok Hfull Hfull_ne Hname Hname_ne Hdate Hdate_ne Hno_full Hno_name Hno_date
    w w' w_ok w_ok'.
  subst w w' w_ok w_ok'.
  split; [apply markAttendance_returns|]. split; [apply toggleAttendance_returns|].
  split; [|split].
  - repeat split.
    + unfold AttendancePage.getServiceAttendance. store_call. rewrite Hfault. reflexivity.
    + unfold RecordsPage.getAttendanceRecords. store_call. rewrite Hfault. reflexivity.
    + unfold AttendancePage.getMembers. store_call. rewrite Hfault. reflexivity.
    + unfold AttendancePage.getServices. store_call. rewrite Hfault. reflexivity.
    + unfold AdminPage.getMembers. store_call. rewrite Hfault. reflexivity.
    + unfold AdminPage.getServices. store_call. rewrite Hfault. reflexivity.
  - split; [apply getServiceAttendance_answered, Hok|].
    split; [|split; [|split; [|split]]].
    + unfold RecordsPage.getAttendanceRecords. store_call. rewrite Hok.
      eexists. split; [reflexivity|]. apply order_perm.
    + rewrite AttendancePage_getMembers_answered by assumption.
      eexists. split; [reflexivity|].
      apply all_members_order. intros kv. split; reflexivity.
    + unfold AttendancePage.getServices. store_call. rewrite Hok.
      eexists. split; [reflexivity|]. apply all_listed_services_order.
    + rewrite AdminPage_getMembers_answered by assumption.
      eexists. split; [reflexivity|]. apply all_member_rows_order.
    + unfold AdminPage.getServices. store_call. rewrite Hok.
      eexists. split; [reflexivity|]. apply all_service_rows_order.
  - repeat split.
    + unfold AdminPage.addMember. rewrite Hfull, falsy_Some, bool_decide_eq_false_2 by assumption.
      rewrite bind_eq, (insert_member_failed _ _ _ _ _ _ msg) by assumption. reflexivity.
    + unfold AdminPage.addService.
      rewrite Hname, Hdate, !falsy_Some, !bool_decide_eq_false_2 by assumption. cbn [orb].
      rewrite bind_eq, (insert_service_failed _ _ _ _ _ _ msg) by assumption. reflexivity.
    + unfold AdminPage.addMember. rewrite (empty_id_falsy _ Hno_full). reflexivity.
    + unfold AdminPage.addService. rewrite (empty_id_falsy _ Hno_name). reflexivity.
    + unfold AdminPage.addService. rewrite (empty_id_falsy _ Hno_date), orb_true_r.
      reflexivity.
Qed.

Lemma results_and_raises_witness :
  let w := mkWorld scenario_db [Some "fetch failed"] [] in
  let member_form := [("full_name", "Mary Major"); ("email", "mary@example.org")] in
  let service_form := [("name", "Evening Service"); ("service_date", "2024-01-21")] in
  (∃ r, (markAttendance jane_sunday w).1 = Return r) ∧
  (∃ r, (toggleAttendance jane sunday w).1 = Return r) ∧
  (AttendancePage.getServiceAttendance sunday w =
     (Throw "Failed to fetch service attendance: fetch failed", scenario) ∧
   RecordsPage.getAttendanceRecords w =
     (Throw "Failed to fetch attendance records: fetch failed", scenario) ∧
   AttendancePage.getMembers w = (Throw "Failed to fetch members: fetch failed", scenario) ∧
   AttendancePage.getServices w = (Throw "Failed to fetch services: fetch failed", scenario) ∧
   AdminPage.getMembers w = (Throw "Failed to fetch members: fetch failed", scenario) ∧
   AdminPage.getServices w = (Throw "Failed to fetch services: fetch failed", scenario)) ∧
  (AttendancePage.getServiceAttendance sunday scenario = (Return [], scenario) ∧
   (∃ l, RecordsPage.getAttendanceRecords scenario = (Return l, scenario) ∧
         l ≡ₚ RecordsPage.joined scenario_db <$> attendance_records scenario_db) ∧
   (∃ l, AttendancePage.getMembers scenario = (Return l, scenario) ∧
         all_members AttendancePage.id AttendancePage.full_name scenario_db l) ∧
   (∃ l, AttendancePage.getServices scenario = (Return l, scenario) ∧
         all_listed_services scenario_db l) ∧
   (∃ l, AdminPage.getMembers scenario = (Return l, scenario) ∧
         all_member_rows scenario_db l) ∧
   (∃ l, AdminPage.getServices scenario = (Return l, scenario) ∧
         all_service_rows scenario_db l)) ∧
  (AdminPage.addMember member_form w = (Throw "Failed to add member: fetch failed", scenario) ∧
   AdminPage.addService service_form w =
     (Throw "Failed to add service: fetch failed", scenario) ∧
   AdminPage.addMember [("full_name", "")] w = (Throw "Full name is required", w) ∧
   AdminPage.addService [("name", ""); ("service_date", "2024-01-21")] w =
     (Throw "Service name and date are required", w) ∧
   AdminPage.addService [("name", "Evening Service")] w =
     (Throw "Service name and date are required", w)).
Proof.
  apply (results_and_raises jane_sunday
           [("full_name", "Mary Major"); ("email", "mary@example.org")]
           [("name", "Evening Service"); ("service_date", "2024-01-21")]
           [("full_name", "")]
           [("name", ""); ("service_date", "2024-01-21")]
           [("name", "Evening Service")]
           jane sunday sunday "fetch failed" "Mary Major" "Evening Service" "2024-01-21"
           (mkWorld scenario_db [Some "fetch failed"] []) scenario_db
           [Some "fetch failed"] [] []);
    try reflexivity; try discriminate.
  - right. reflexivity.
  - right. reflexivity.
  - left. reflexivity.
Defined.

(** * What the records page reads from an embedded relation *)

Lemma unknown_names db a :
  RecordsPage.serviceName (RecordsPage.joined db a) = "Unknown Service" ∧
  RecordsPage.memberName (RecordsPage.joined db a) = "Unknown Member".
Proof.
  unfold RecordsPage.serviceName, RecordsPage.memberName, RecordsPage.joined.
  cbn [RecordsPage.services RecordsPage.members].
  destruct (service_rows db (ar_service_id a)), (member_rows db (ar_member_id a));
    split; reflexivity.
Qed.

Lemma filter_Forall_all {A} (P : A → Prop) `{∀ x, Decision (P x)} (l : list A) :
  Forall P l → filter P l = l.
Proof.
  induction 1 as [|x l Hx _ IH]; [reflexivity|].
  rewrite filter_cons, decide_True by assumption. f_equal. exact IH.
Qed.

Lemma filter_Forall_none {A} (P : A → Prop) `{∀ x, Decision (P x)} (l : list A) :
  Forall (λ x, ¬ P x) l → filter P l = [].
Proof.
  induction 1 as [|x l Hx _ IH]; [reflexivity|].
  rewrite filter_cons, decide_False by assumption. exact IH.
Qed.

Lemma single_group (recs : list RecordsPage.AttendanceRecord) :
  Forall (λ r, RecordsPage.serviceName r = "Unknown Service") recs →
  RecordsPage.recordsByService recs =
  Return (match recs with [] => ∅ | _ => {[ "Unknown Service" := recs ]} end).
Proof.
  intros Hnames.
  destruct (grouping_from ∅ recs) as (groups & Hfold & Hgroups).
  { eapply Forall_impl; [exact Hnames|]. intros r ->.
    apply (bool_decide_unpack _). vm_compute. exact I. }
  unfold RecordsPage.recordsByService. rewrite Hfold. f_equal.
  apply map_eq. intros k. rewrite Hgroups, lookup_empty.
  destruct (decide (k = "Unknown Service")) as [->|Hk].
  - rewrite filter_Forall_all by assumption.
    destruct recs; [reflexivity|]. rewrite lookup_singleton_eq. reflexivity.
  - rewrite filter_Forall_none.
    + destruct recs; [reflexivity|]. rewrite lookup_singleton_ne by congruence. reflexivity.
    + eapply Forall_impl; [exact Hnames|]. intros r ->. congruence.
Qed.

(** X24: the store answers the service and the member of a record each as
    one object, and the page reads element 0 of it, which an object does not
    have. So for every store, when the query is answered, every record that
    getAttendanceRecords returns is named 'Unknown Service' and 'Unknown
    Member' by the page, and recordsByService puts all records, in the order
    returned, into the single group 'Unknown Service'. *)
Theorem records_page_unknown_names (db : DB) (fs : list (option string)) (rv : list string) :
  fault_of fs = None →
  ∃ recs,
    RecordsPage.getAttendanceRecords (mkWorld db fs rv) =
      (Return recs, mkWorld db (tail fs) rv) ∧
    recs ≡ₚ RecordsPage.joined db <$> attendance_records db ∧
    Forall (λ r, RecordsPage.serviceName r = "Unknown Service" ∧
                 RecordsPage.memberName r = "Unknown Member") recs ∧
    RecordsPage.recordsByService recs =
      Return (match recs with [] => ∅ | _ => {[ "Unknown Service" := recs ]} end).
Proof.
  intros Hfault. unfold RecordsPage.getAttendanceRecords. store_call. rewrite Hfault.
  cbn [error ok data from_option id mret M_ret].
  set (recs := order text_le RecordsPage.service_date false
                 (RecordsPage.joined db <$> attendance_records db)).
  assert (recs ≡ₚ RecordsPage.joined db <$> attendance_records db) as Hperm
    by apply order_perm.
  assert (Forall (λ r, RecordsPage.serviceName r = "Unknown Service" ∧
                       RecordsPage.memberName r = "Unknown Member") recs) as Hnames.
  { rewrite Hperm. apply Forall_fmap, Forall_forall. intros a _. apply unknown_names. }
  clearbody recs.
  exists recs. split; [reflexivity|]. split; [exact Hperm|]. split; [exact Hnames|].
  apply single_group. eapply Forall_impl; [exact Hnames|]. intros r [Hr _]. exact Hr.
Qed.

Lemma records_page_unknown_names_witness :
  ∃ recs,
    RecordsPage.getAttendanceRecords (mkWorld weekly_db [] []) =
      (Return recs, mkWorld weekly_db [] []) ∧
    recs ≡ₚ RecordsPage.joined weekly_db <$> attendance_records weekly_db ∧
    Forall (λ r, RecordsPage.serviceName r = "Unknown Service" ∧
                 RecordsPage.memberName r = "Unknown Member") recs ∧
    RecordsPage.recordsByService recs =
      Return (match recs with [] => ∅ | _ => {[ "Unknown Service" := recs ]} end).
Proof. apply (records_page_unknown_names weekly_db [] []). reflexivity. Defined.
